(** * golambdas/httpbridge: request/response translation layer

    A shallow embedding of [httpbridge/requests.go], the response writer and
    transcoders, and the [ServeHTTP] / [serve] orchestrators, together with
    the properties of the specification that concern them.

    Conventions.
    - A Go [string] is a Rocq [string] (a sequence of 8-bit characters); a Go
      [[]byte] is a [list byte].
    - A Go [map[string]T] is a [gmap string T]; a map that may be [nil] is an
      [option (gmap string T)], [None] being the nil map (reads of a nil map
      behave as reads of the empty map, writes panic).
    - A Go [int] that is only stored and compared is a [Z].
    - A Go [error] is the text its [Error()] method returns.
    - Calls to [slog] only log and are left out. *)

From Stdlib Require Import ZArith List.
From Stdlib.Strings Require Import Ascii String Byte.
From stdpp Require Import base option list strings gmap fin_maps.

Local Open Scope string_scope.
Local Open Scope list_scope.
Local Open Scope Z_scope.

(** ** Results of Go calls *)

Definition error := string.

(** What a call can do: return a value, return an error, or panic. *)
Inductive Outcome (A : Type) : Type :=
  | Ok (a : A)
  | Err (e : error)
  | Panic (msg : string).
Arguments Ok {A} a.
Arguments Err {A} e.
Arguments Panic {A} msg.

(** [fmt.Errorf] with one [%s] and a trailing [%w]. *)
Definition Errorf_s_w (pre : string) (s : string) (mid : string) (e : error) : error :=
  pre +:+ s +:+ mid +:+ e.

(** [fmt.Errorf] with a trailing [%w] only. *)
Definition Errorf_w (pre : string) (e : error) : error := pre +:+ e.

(** ** encoding/base64, StdEncoding (RFC 4648 section 4, with padding) *)

Module Base64.

Definition sextet : Type := bool * bool * bool * bool * bool * bool.

Definition alphabet : string :=
  "ABCDEFGHIJKLMNOPQRSTUVWXYZabcdefghijklmnopqrstuvwxyz0123456789+/".

Definition pad : ascii := "="%char.

(** The six bits are listed most significant first. *)
Definition sextet_index (s : sextet) : nat :=
  let '(b5, b4, b3, b2, b1, b0) := s in
  (Nat.b2n b5 * 32 + Nat.b2n b4 * 16 + Nat.b2n b3 * 8
   + Nat.b2n b2 * 4 + Nat.b2n b1 * 2 + Nat.b2n b0)%nat.

Definition char_of_sextet (s : sextet) : ascii :=
  match String.get (sextet_index s) alphabet with
  | Some c => c
  | None => pad
  end.

Definition bit (n : nat) (k : nat) : bool := Nat.testbit n k.

Fixpoint index_of (c : ascii) (s : string) : option nat :=
  match s with
  | EmptyString => None
  | String d r => if Ascii.eqb c d then Some O else S <$> index_of c r
  end.

Definition sextet_of_char (c : ascii) : option sextet :=
  (fun n => (bit n 5, bit n 4, bit n 3, bit n 2, bit n 1, bit n 0))
    <$> index_of c alphabet.

(** [Ascii b0 .. b7] lists the least significant bit first. *)
Definition group3 (x y z : ascii) : sextet * sextet * sextet * sextet :=
  let '(Ascii x0 x1 x2 x3 x4 x5 x6 x7) := x in
  let '(Ascii y0 y1 y2 y3 y4 y5 y6 y7) := y in
  let '(Ascii z0 z1 z2 z3 z4 z5 z6 z7) := z in
  ((x7, x6, x5, x4, x3, x2), (x1, x0, y7, y6, y5, y4),
   (y3, y2, y1, y0, z7, z6), (z5, z4, z3, z2, z1, z0)).

Definition ungroup3 (q : sextet * sextet * sextet * sextet) : ascii * ascii * ascii :=
  let '((x7, x6, x5, x4, x3, x2), (x1, x0, y7, y6, y5, y4),
        (y3, y2, y1, y0, z7, z6), (z5, z4, z3, z2, z1, z0)) := q in
  (Ascii x0 x1 x2 x3 x4 x5 x6 x7, Ascii y0 y1 y2 y3 y4 y5 y6 y7,
   Ascii z0 z1 z2 z3 z4 z5 z6 z7).

Definition zero : ascii := Ascii false false false false false false false false.

(** [EncodeToString] on the characters of the input. *)
Fixpoint encode_ascii (l : list ascii) : string :=
  match l with
  | [] => EmptyString
  | [x] =>
      let '(s1, s2, _, _) := group3 x zero zero in
      String (char_of_sextet s1) (String (char_of_sextet s2)
        (String pad (String pad EmptyString)))
  | [x; y] =>
      let '(s1, s2, s3, _) := group3 x y zero in
      String (char_of_sextet s1) (String (char_of_sextet s2)
        (String (char_of_sextet s3) (String pad EmptyString)))
  | x :: y :: z :: r =>
      let '(s1, s2, s3, s4) := group3 x y z in
      String (char_of_sextet s1) (String (char_of_sextet s2)
        (String (char_of_sextet s3) (String (char_of_sextet s4) (encode_ascii r))))
  end.

Definition is_pad (c : ascii) : bool := Ascii.eqb c pad.

Definition zero6 : sextet := (false, false, false, false, false, false).

(** [DecodeString] on input without line breaks: quanta of four
    characters, padding only in the last quantum. *)
Fixpoint decode_ascii (s : string) : option (list ascii) :=
  match s with
  | EmptyString => Some []
  | String c1 (String c2 (String c3 (String c4 r))) =>
      match r with
      | EmptyString =>
          if is_pad c4 then
            if is_pad c3 then
              s1 ← sextet_of_char c1; s2 ← sextet_of_char c2;
              let '(x, _, _) := ungroup3 (s1, s2, zero6, zero6) in Some [x]
            else
              s1 ← sextet_of_char c1; s2 ← sextet_of_char c2;
              s3 ← sextet_of_char c3;
              let '(x, y, _) := ungroup3 (s1, s2, s3, zero6) in Some [x; y]
          else
            s1 ← sextet_of_char c1; s2 ← sextet_of_char c2;
            s3 ← sextet_of_char c3; s4 ← sextet_of_char c4;
            let '(x, y, z) := ungroup3 (s1, s2, s3, s4) in Some [x; y; z]
      | _ =>
          s1 ← sextet_of_char c1; s2 ← sextet_of_char c2;
          s3 ← sextet_of_char c3; s4 ← sextet_of_char c4;
          rest ← decode_ascii r;
          let '(x, y, z) := ungroup3 (s1, s2, s3, s4) in Some (x :: y :: z :: rest)
      end
  | _ => None
  end.

Definition EncodeToString (b : list byte) : string :=
  encode_ascii (map ascii_of_byte b).

Definition DecodeString (s : string) : option (list byte) :=
  map byte_of_ascii <$> decode_ascii s.

End Base64.

(** ** strings, net/textproto and net/http helpers the bridge calls *)

(** [strings.Join]. *)
Fixpoint Join (elems : list string) (sep : string) : string :=
  match elems with
  | [] => ""
  | [x] => x
  | x :: r => x +:+ sep +:+ Join r sep
  end.

(** The first element of [strings.SplitN(s, ",", 2)]: the text before the
    first comma, or all of [s] when it has none. [SplitN] with [n = 2] never
    returns an empty slice. *)
Fixpoint beforeComma (s : string) : string :=
  match s with
  | EmptyString => EmptyString
  | String c r => if Ascii.eqb c ","%char then EmptyString else String c (beforeComma r)
  end.

Module textproto.

Definition between (lo hi c : ascii) : bool :=
  (nat_of_ascii lo <=? nat_of_ascii c)%nat && (nat_of_ascii c <=? nat_of_ascii hi)%nat.

Definition isLower (c : ascii) : bool := between "a" "z" c.
Definition isUpper (c : ascii) : bool := between "A" "Z" c.
Definition isDigit (c : ascii) : bool := between "0" "9" c.

(** The token characters of RFC 7230. *)
Definition validHeaderFieldByte (c : ascii) : bool :=
  isLower c || isUpper c || isDigit c
  || bool_decide (c ∈ ["!"; "#"; "$"; "%"; "&"; "'"; "*"; "+"; "-"; "."; "^"; "_"; "`"; "|"; "~"]%char).

Fixpoint allValid (s : string) : bool :=
  match s with
  | EmptyString => true
  | String c r => validHeaderFieldByte c && allValid r
  end.

Definition toLower : nat := 32.

(** First letter and every letter after a dash in upper case, the others
    in lower case. *)
Fixpoint canonicalize (upper : bool) (s : string) : string :=
  match s with
  | EmptyString => EmptyString
  | String c r =>
      let c' :=
        if upper && isLower c then ascii_of_nat (nat_of_ascii c - toLower)
        else if negb upper && isUpper c then ascii_of_nat (nat_of_ascii c + toLower)
        else c in
      String c' (canonicalize (Ascii.eqb c' "-"%char) r)
  end.

(** [CanonicalMIMEHeaderKey]: a key holding a byte that is not a token
    character (a space included) is returned unchanged. *)
Definition CanonicalMIMEHeaderKey (s : string) : string :=
  if allValid s then canonicalize true s else s.

End textproto.

Module http.

Definition CanonicalHeaderKey : string -> string := textproto.CanonicalMIMEHeaderKey.

Definition StatusOK : Z := 200.
Definition StatusInternalServerError : Z := 500.

(** [http.Header] is [map[string][]string]. *)
Abbreviation Header := (gmap string (list string)).

(** [h.Add(key, value)]: append under the canonical form of [key]. *)
Definition Add (h : Header) (key value : string) : Header :=
  let key := CanonicalHeaderKey key in
  <[key := (default [] (h !! key) ++ [value])%list]> h.

(** [h.Set(key, value)]. *)
Definition Set_ (h : Header) (key value : string) : Header :=
  <[CanonicalHeaderKey key := [value]]> h.

(** [h.Get(key)]: the first value under the canonical form of [key], or
    the empty string. *)
Definition Get (h : Header) (key : string) : string :=
  match h !! CanonicalHeaderKey key with
  | Some (v :: _) => v
  | _ => ""
  end.

End http.

(** ** What the bridge takes from the Go runtime and its libraries

    These functions are not part of the repository. The bridge is modelled
    over any implementation of them; the only laws used are that ranging
    over a map visits every entry once, in some order, and that marshalling
    a struct of an int, a string and a bool cannot fail. *)

Definition RawMessage := list byte.

(** [net/url.URL] as the bridge fills it. *)
Record URL := mkURL { Host : string; Path : string; RawQuery : string }.

(** [url.Values]. *)
Abbreviation Values := (gmap string (list string)).

(** [params.Add(k, v)]: [url.Values] does not canonicalize keys. *)
Definition Values_Add (params : Values) (k v : string) : Values :=
  <[k := (default [] (params !! k) ++ [v])%list]> params.

(** The fallback reply. *)
Record leastCommonDenominatorResponse := mkLCD {
  lcd_StatusCode : Z;
  lcd_Body : string;
  lcd_IsBase64Encoded : bool
}.

(** [events.APIGatewayV2HTTPResponse]. *)
Record apiGatewayV2Response := mkV2Response {
  v2_StatusCode : Z;
  v2_Headers : option (gmap string string);
  v2_MultiValueHeaders : option (gmap string (list string));
  v2_Body : string;
  v2_IsBase64Encoded : bool;
  v2_Cookies : list string
}.

(** [events.APIGatewayProxyResponse]. *)
Record apiGatewayV1Response := mkV1Response {
  v1_StatusCode : Z;
  v1_Headers : option (gmap string string);
  v1_MultiValueHeaders : option (gmap string (list string));
  v1_Body : string;
  v1_IsBase64Encoded : bool
}.

(** [events.ALBTargetGroupResponse]. *)
Record albResponse := mkALBResponse {
  alb_StatusCode : Z;
  alb_StatusDescription : string;
  alb_Headers : option (gmap string string);
  alb_MultiValueHeaders : option (gmap string (list string));
  alb_Body : string;
  alb_IsBase64Encoded : bool
}.

(** The implementations of the interface [lambdaHTTPResponse] that
    [demuxAmbiguousRequest] prepares. *)
Inductive lambdaHTTPResponse :=
  | RespALB (r : albResponse)
  | RespV2 (r : apiGatewayV2Response)
  | RespV1 (r : apiGatewayV1Response).

(** The values handed to [json.Marshal]. *)
Inductive any :=
  | AnyLCD (r : leastCommonDenominatorResponse)
  | AnyResponse (r : lambdaHTTPResponse).

(** The fields of [events.APIGatewayV2HTTPRequest] that [Canonize] reads. *)
Record apiGatewayV2Request := mkV2Request {
  v2_RawQueryString : string;
  v2_QueryStringParameters : gmap string string;
  v2_ReqHeaders : gmap string string;
  v2_RawPath : string;
  v2_ReqIsBase64Encoded : bool;
  v2_ReqBody : string;
  v2_HTTP_Method : string;
  v2_HTTP_SourceIP : string
}.

(** The fields of [events.APIGatewayProxyRequest] that [Canonize] reads. *)
Record apiGatewayV1Request := mkV1Request {
  v1_QueryStringParameters : gmap string string;
  v1_MultiValueQueryStringParameters : gmap string (list string);
  v1_ReqHeaders : gmap string string;
  v1_ReqMultiValueHeaders : gmap string (list string);
  v1_Path : string;
  v1_ReqIsBase64Encoded : bool;
  v1_ReqBody : string;
  v1_HTTPMethod : string;
  v1_Identity_SourceIP : string
}.

(** The fields of [events.ALBTargetGroupRequest] that [Canonize] reads. *)
Record albRequest := mkALBRequest {
  alb_QueryStringParameters : gmap string string;
  alb_ReqHeaders : gmap string string;
  alb_ReqMultiValueHeaders : gmap string (list string);
  alb_Path : string;
  alb_ReqIsBase64Encoded : bool;
  alb_ReqBody : string;
  alb_HTTPMethod : string
}.

(** The implementations of the interface [lambdaHTTPRequest]. *)
Inductive lambdaHTTPRequest :=
  | ReqALB (r : albRequest)
  | ReqV2 (r : apiGatewayV2Request)
  | ReqV1 (r : apiGatewayV1Request).

(** [ambiguousLambdaRequest], its nested structs flattened. *)
Record ambiguousLambdaRequest := mkAmbiguous {
  RequestContext_ELB_TargetGroupArn : string;
  RequestContext_AccountID : string;
  Version : string
}.

Class GoEnv := {
  (** [for k, v := range m]: the entries in the order this run visits them. *)
  range : forall {V : Type}, gmap string V -> list (string * V);
  range_perm : forall (V : Type) (m : gmap string V), range m ≡ₚ map_to_list m;
  (** [http.DetectContentType]. *)
  DetectContentType : list byte -> string;
  (** [http.StatusText]. *)
  StatusText : Z -> string;
  (** [url.PathUnescape]. *)
  PathUnescape : string -> error + string;
  (** [url.Values.Encode]. *)
  Values_Encode : Values -> string;
  (** The methods [String] and [RequestURI] of [url.URL]. *)
  URL_String : URL -> string;
  URL_RequestURI : URL -> string;
  (** What [http.NewRequestWithContext] makes of the method and the URL
      text: an error, or the method, parsed URL and host of the request. *)
  newRequestLine : string -> string -> error + (string * URL * string);
  (** [json.Unmarshal] into each of the request structs; on an error the
      struct may be partly filled. *)
  Unmarshal_ambiguous : RawMessage -> error + ambiguousLambdaRequest;
  Unmarshal_alb : RawMessage -> albRequest * option error;
  Unmarshal_v2 : RawMessage -> apiGatewayV2Request * option error;
  Unmarshal_v1 : RawMessage -> apiGatewayV1Request * option error;
  (** [json.Marshal]. *)
  Marshal : any -> error + RawMessage;
  Marshal_lcd : forall r, exists bs, Marshal (AnyLCD r) = inr bs
}.

(** ** Request bodies *)

(** The [io.Reader] values [Canonize] builds. *)
Inductive Reader :=
  | nilReader
  | strings_NewReader (s : string)
  | base64_NewDecoder (src : Reader).

Definition nilDereference : string :=
  "runtime error: invalid memory address or nil pointer dereference".

(** Reading a body to its end. A base64 decoder reads its source; calling
    [Read] on a nil [io.Reader] panics. *)
Fixpoint ReadAll (r : Reader) : Outcome (list byte) :=
  match r with
  | nilReader => Panic nilDereference
  | strings_NewReader s => Ok (list_byte_of_string s)
  | base64_NewDecoder src =>
      match ReadAll src with
      | Ok enc =>
          match Base64.DecodeString (string_of_list_byte enc) with
          | Some dec => Ok dec
          | None => Err "illegal base64 data"
          end
      | Err e => Err e
      | Panic p => Panic p
      end
  end.

(** The fields of [http.Request] the bridge sets. *)
Record Request := mkRequest {
  req_Method : string;
  req_URL : URL;
  req_Header : http.Header;
  req_Body : Reader;
  req_Host : string;
  req_RemoteAddr : string;
  req_RequestURI : string
}.

(** ** The response writer (capture buffer) *)

Definition setCookieHeader : string := http.CanonicalHeaderKey "set-cookie".
Definition contentTypeHeader : string := http.CanonicalHeaderKey "content-type".
Definition transferEncodingHeader : string := http.CanonicalHeaderKey "transfer-encoding".
Definition hostHeader : string := http.CanonicalHeaderKey "host".

Definition mimeTypeApplicationOctetStream : string := "application/octet-stream".

Record lambdaHTTPResponseWriter := mkWriter {
  header : option http.Header;
  body : list byte;
  statusCode : Z;
  preparedResponse : option lambdaHTTPResponse
}.

Definition with_header (h : option http.Header) (l : lambdaHTTPResponseWriter) :=
  mkWriter h (body l) (statusCode l) (preparedResponse l).
Definition with_body (b : list byte) (l : lambdaHTTPResponseWriter) :=
  mkWriter (header l) b (statusCode l) (preparedResponse l).
Definition with_statusCode (s : Z) (l : lambdaHTTPResponseWriter) :=
  mkWriter (header l) (body l) s (preparedResponse l).
Definition with_preparedResponse (p : option lambdaHTTPResponse) (l : lambdaHTTPResponseWriter) :=
  mkWriter (header l) (body l) (statusCode l) p.

(** [&lambdaHTTPResponseWriter{}]. *)
Definition newWriter : lambdaHTTPResponseWriter := mkWriter None [] 0 None.

(** The header map as read: a nil map reads as the empty map. *)
Definition headerMap (l : lambdaHTTPResponseWriter) : http.Header := default ∅ (header l).

(** A [[]byte] argument: [None] is the nil slice. *)
Definition elems (data : option (list byte)) : list byte := default [] data.

Section Bridge.
Context `{GoEnv}.

(** [Header()] returns the map and makes it first when it is nil. *)
Definition Header_ (l : lambdaHTTPResponseWriter) : http.Header * lambdaHTTPResponseWriter :=
  match header l with
  | None => (∅, with_header (Some ∅) l)
  | Some h => (h, l)
  end.

Definition writeHeaderLine (l : lambdaHTTPResponseWriter) (data : option (list byte))
  : lambdaHTTPResponseWriter :=
  if decide (statusCode l ≠ 0) then l
  else
    let l := with_statusCode 200 l in
    let '(header, l) := Header_ l in
    let hasType := bool_decide (is_Some (header !! contentTypeHeader)) in
    let hasTE := negb (String.eqb (http.Get header transferEncodingHeader) "") in
    let header :=
      if negb hasType && negb hasTE then
        match data with
        | Some d => http.Set_ header contentTypeHeader (DetectContentType d)
        | None => header
        end
      else header in
    with_header (Some header) l.

(** [bytes.Buffer.Write] appends and returns [len(p), nil]. *)
Definition Buffer_Write (b : list byte) (p : option (list byte))
  : list byte * (Z * option error) :=
  ((b ++ elems p)%list, (Z.of_nat (length (elems p)), None)).

Definition Write (l : lambdaHTTPResponseWriter) (data : option (list byte))
  : lambdaHTTPResponseWriter * (Z * option error) :=
  let l := writeHeaderLine l data in
  let '(b, (written, err)) := Buffer_Write (body l) data in
  let l := with_body b l in
  match err with
  | Some e => (l, (written, Some e))
  | None => (l, (written, None))
  end.

Definition WriteHeader (l : lambdaHTTPResponseWriter) (statusCode' : Z)
  : lambdaHTTPResponseWriter :=
  if decide (statusCode l ≠ 0) then l else with_statusCode statusCode' l.

Definition Flush (l : lambdaHTTPResponseWriter) : lambdaHTTPResponseWriter :=
  if decide (statusCode l ≠ 0) then l else WriteHeader l http.StatusOK.

(** The calls a handler makes on the writer besides editing the header
    map. *)
Inductive call :=
  | CallWriteHeader (statusCode : Z)
  | CallWrite (data : option (list byte))
  | CallFlush.

Definition perform (l : lambdaHTTPResponseWriter) (c : call) : lambdaHTTPResponseWriter :=
  match c with
  | CallWriteHeader s => WriteHeader l s
  | CallWrite d => fst (Write l d)
  | CallFlush => Flush l
  end.

Definition performAll (l : lambdaHTTPResponseWriter) (cs : list call) : lambdaHTTPResponseWriter :=
  foldl perform l cs.

(** The bytes the calls of [cs] hand to [Write], in order. *)
Definition written (cs : list call) : list byte :=
  concat (map (fun c => match c with CallWrite d => elems d | _ => [] end) cs).

(** ** Response transcoders *)

Definition nilMapAssignment : string := "assignment to entry in nil map".

(** The body of the loop of the gateway-v2 transcoder, on the headers map
    and the cookie list of the receiver. *)
Definition v2_place (acc : gmap string string * list string) (kv : string * list string)
  : gmap string string * list string :=
  let '(headers, cookies) := acc in
  let '(k, v) := kv in
  if decide (k = setCookieHeader) then (headers, (cookies ++ v)%list)
  else (<[k := Join v ","]> headers, cookies).

Definition TranscodeFrom_v2 (r : apiGatewayV2Response) (httpResponse : lambdaHTTPResponseWriter)
  : Outcome apiGatewayV2Response :=
  let '(headers, cookies) :=
    foldl v2_place (∅, v2_Cookies r) (range (headerMap httpResponse)) in
  let contentType := http.Get (headerMap httpResponse) contentTypeHeader in
  let body := body httpResponse in
  if String.eqb contentType mimeTypeApplicationOctetStream then
    Ok (mkV2Response (statusCode httpResponse) (Some headers) (v2_MultiValueHeaders r)
          (Base64.EncodeToString body) true cookies)
  else
    Ok (mkV2Response (statusCode httpResponse) (Some headers) (v2_MultiValueHeaders r)
          (string_of_list_byte body) (v2_IsBase64Encoded r) cookies).

(** The body of the loop of the gateway-v1 and load-balancer transcoders,
    on the single-value map (made by the transcoder) and the multi-value
    map (as the receiver holds it: writing to a nil map panics). *)
Definition place (acc : Outcome (gmap string string * option (gmap string (list string))))
    (kv : string * list string)
  : Outcome (gmap string string * option (gmap string (list string))) :=
  match acc with
  | Ok (headers, multi) =>
      let '(k, v) := kv in
      if decide (1 < length v)%nat then
        match multi with
        | None => Panic nilMapAssignment
        | Some m => Ok (headers, Some (<[k := v]> m))
        end
      else
        match v with
        | [v0] => Ok (<[k := v0]> headers, multi)
        | _ => Ok (headers, multi)
        end
  | Err e => Err e
  | Panic p => Panic p
  end.

Definition TranscodeFrom_v1 (r : apiGatewayV1Response) (httpResponse : lambdaHTTPResponseWriter)
  : Outcome apiGatewayV1Response :=
  match foldl place (Ok (∅, v1_MultiValueHeaders r)) (range (headerMap httpResponse)) with
  | Ok (headers, multi) =>
      let contentType := http.Get (headerMap httpResponse) contentTypeHeader in
      let body := body httpResponse in
      if String.eqb contentType mimeTypeApplicationOctetStream then
        Ok (mkV1Response (statusCode httpResponse) (Some headers) multi
              (Base64.EncodeToString body) true)
      else
        Ok (mkV1Response (statusCode httpResponse) (Some headers) multi
              (string_of_list_byte body) (v1_IsBase64Encoded r))
  | Err e => Err e
  | Panic p => Panic p
  end.

Definition TranscodeFrom_alb (r : albResponse) (httpResponse : lambdaHTTPResponseWriter)
  : Outcome albResponse :=
  let description := StatusText (statusCode httpResponse) in
  match foldl place (Ok (∅, alb_MultiValueHeaders r)) (range (headerMap httpResponse)) with
  | Ok (headers, multi) =>
      let contentType := http.Get (headerMap httpResponse) contentTypeHeader in
      let body := body httpResponse in
      if String.eqb contentType mimeTypeApplicationOctetStream then
        Ok (mkALBResponse (statusCode httpResponse) description (Some headers) multi
              (Base64.EncodeToString body) true)
      else
        Ok (mkALBResponse (statusCode httpResponse) description (Some headers) multi
              (string_of_list_byte body) (alb_IsBase64Encoded r))
  | Err e => Err e
  | Panic p => Panic p
  end.

(** The method [TranscodeFrom] of the interface [lambdaHTTPResponse]. *)
Definition TranscodeFrom (r : lambdaHTTPResponse) (httpResponse : lambdaHTTPResponseWriter)
  : Outcome lambdaHTTPResponse :=
  match r with
  | RespALB r =>
      match TranscodeFrom_alb r httpResponse with
      | Ok r => Ok (RespALB r) | Err e => Err e | Panic p => Panic p
      end
  | RespV2 r =>
      match TranscodeFrom_v2 r httpResponse with
      | Ok r => Ok (RespV2 r) | Err e => Err e | Panic p => Panic p
      end
  | RespV1 r =>
      match TranscodeFrom_v1 r httpResponse with
      | Ok r => Ok (RespV1 r) | Err e => Err e | Panic p => Panic p
      end
  end.

(** The fallback envelope [ambiguousLambdaResponse.TranscodeFrom] builds
    when no response was prepared. *)
Definition fallbackResponse (httpResponse : lambdaHTTPResponseWriter)
  : leastCommonDenominatorResponse :=
  let contentType := http.Get (headerMap httpResponse) contentTypeHeader in
  let body := body httpResponse in
  if String.eqb contentType mimeTypeApplicationOctetStream then
    mkLCD (statusCode httpResponse) (Base64.EncodeToString body) true
  else
    mkLCD (statusCode httpResponse) (string_of_list_byte body) false.

(** The value [ambiguousLambdaResponse.TranscodeFrom] hands to
    [json.Marshal]. *)
Definition transcoded (httpResponse : lambdaHTTPResponseWriter) : Outcome any :=
  match preparedResponse httpResponse with
  | None => Ok (AnyLCD (fallbackResponse httpResponse))
  | Some prepared =>
      match TranscodeFrom prepared httpResponse with
      | Err err => Err (Errorf_w "failed to transcode response: " err)
      | Panic p => Panic p
      | Ok prepared => Ok (AnyResponse prepared)
      end
  end.

(** [ambiguousLambdaResponse.TranscodeFrom]: the bytes stored in the
    receiver, or the error returned. *)
Definition TranscodeFrom_ambiguous (httpResponse : lambdaHTTPResponseWriter)
  : Outcome RawMessage :=
  match transcoded httpResponse with
  | Ok out =>
      match Marshal out with
      | inl err => Err (Errorf_w "failed to marshal response to JSON: " err)
      | inr jsonBytes => Ok jsonBytes
      end
  | Err e => Err e
  | Panic p => Panic p
  end.

(** ** Request canonicalizers *)

(** [http.NewRequestWithContext] with a non-nil context: the request line
    is checked and parsed by the library, the body is stored as given (an
    empty [strings.Reader] is replaced by [http.NoBody], which reads the
    same), and the header map is made empty. *)
Definition NewRequestWithContext (method url : string) (body : Reader) : error + Request :=
  match newRequestLine method url with
  | inl err => inl err
  | inr (method, u, host) => inr (mkRequest method u ∅ body host "" "")
  end.

(** [for k, v := range m { headers.Add(k, v) }] on a fresh header map. *)
Definition addHeaders (m : gmap string string) : http.Header :=
  foldl (fun headers kv => http.Add headers kv.1 kv.2) ∅ (range m).

(** [for k, v := range m { params.Add(k, v) }]. *)
Definition addParams (params : Values) (m : gmap string string) : Values :=
  foldl (fun params kv => Values_Add params kv.1 kv.2) params (range m).

(** [for k, v := range m { for _, vv := range v { params.Add(k, vv) } }]. *)
Definition addMultiParams (params : Values) (m : gmap string (list string)) : Values :=
  foldl (fun params kv => foldl (fun params vv => Values_Add params kv.1 vv) params kv.2)
    params (range m).

(** [for k, v := range m { headers[k] = v }]. *)
Definition setHeaders (headers : http.Header) (m : gmap string (list string)) : http.Header :=
  foldl (fun headers kv => <[kv.1 := kv.2]> headers) headers (range m).

(** The tail shared by the three canonicalizers, from the unescaping of
    the path on. [body] is the variable of that name where
    [base64.NewDecoder] reads it: declared and not yet assigned. *)
Definition finishCanonize (rawPath rawQuery method remoteAddr : string)
    (headers : http.Header) (isBase64Encoded : bool) (bodyField : string)
  : Outcome Request :=
  match PathUnescape rawPath with
  | inl err => Err (Errorf_s_w "failed to unescape path " rawPath " from request: " err)
  | inr path =>
      let u := mkURL (http.Get headers hostHeader) path rawQuery in
      let body := nilReader in
      let body :=
        if isBase64Encoded then base64_NewDecoder body
        else strings_NewReader bodyField in
      match NewRequestWithContext method (URL_String u) body with
      | inl err => Err (Errorf_w "failed to canonize incoming http request: " err)
      | inr out =>
          Ok (mkRequest (req_Method out) (req_URL out) headers (req_Body out)
                (req_Host out) remoteAddr (URL_RequestURI u))
      end
  end.

Definition Canonize_v2 (r : apiGatewayV2Request) : Outcome Request :=
  let rawQuery := v2_RawQueryString r in
  let rawQuery :=
    if decide (String.length rawQuery = 0%nat) then
      Values_Encode (addParams ∅ (v2_QueryStringParameters r))
    else rawQuery in
  let headers := addHeaders (v2_ReqHeaders r) in
  finishCanonize (v2_RawPath r) rawQuery (v2_HTTP_Method r) (v2_HTTP_SourceIP r)
    headers (v2_ReqIsBase64Encoded r) (v2_ReqBody r).

Definition Canonize_v1 (r : apiGatewayV1Request) : Outcome Request :=
  let params := addParams ∅ (v1_QueryStringParameters r) in
  let params := addMultiParams params (v1_MultiValueQueryStringParameters r) in
  let rawQuery := Values_Encode params in
  let headers := addHeaders (v1_ReqHeaders r) in
  let headers := setHeaders headers (v1_ReqMultiValueHeaders r) in
  finishCanonize (v1_Path r) rawQuery (v1_HTTPMethod r) (v1_Identity_SourceIP r)
    headers (v1_ReqIsBase64Encoded r) (v1_ReqBody r).

Definition sourceIP (r : albRequest) : string :=
  match alb_ReqMultiValueHeaders r !! "x-forwarded-for" with
  | Some (xff0 :: _) => beforeComma xff0
  | _ => ""
  end.

Definition Canonize_alb (r : albRequest) : Outcome Request :=
  let params := addParams ∅ (alb_QueryStringParameters r) in
  let rawQuery := Values_Encode params in
  let headers := addHeaders (alb_ReqHeaders r) in
  finishCanonize (alb_Path r) rawQuery (alb_HTTPMethod r) (sourceIP r)
    headers (alb_ReqIsBase64Encoded r) (alb_ReqBody r).

(** The method [Canonize] of the interface [lambdaHTTPRequest]. *)
Definition Canonize (r : lambdaHTTPRequest) : Outcome Request :=
  match r with
  | ReqALB r => Canonize_alb r
  | ReqV2 r => Canonize_v2 r
  | ReqV1 r => Canonize_v1 r
  end.

(** ** Classification *)

Definition ErrUnsupportedRequestType : error := "unsupported request type".

(** The zero values [&albResponse{}], [&apiGatewayV2Response{}] and
    [&apiGatewayV1Response{}]. *)
Definition newALBResponse : albResponse := mkALBResponse 0 "" None None "" false.
Definition newV2Response : apiGatewayV2Response := mkV2Response 0 None None "" false [].
Definition newV1Response : apiGatewayV1Response := mkV1Response 0 None None "" false.

(** Returns the writer as the call leaves it, the request and the error. *)
Definition demuxAmbiguousRequest (payload : RawMessage) (rw : lambdaHTTPResponseWriter)
  : lambdaHTTPResponseWriter * (option lambdaHTTPRequest * option error) :=
  match Unmarshal_ambiguous payload with
  | inl err => (rw, (None, Some err))
  | inr ambiguous =>
      if negb (String.eqb (RequestContext_ELB_TargetGroupArn ambiguous) "") then
        let '(albReq, err) := Unmarshal_alb payload in
        (with_preparedResponse (Some (RespALB newALBResponse)) rw, (Some (ReqALB albReq), err))
      else if String.eqb (Version ambiguous) "2.0" then
        let '(apiV2Req, err) := Unmarshal_v2 payload in
        (with_preparedResponse (Some (RespV2 newV2Response)) rw, (Some (ReqV2 apiV2Req), err))
      else if negb (String.eqb (RequestContext_AccountID ambiguous) "") then
        let '(apiV1Req, err) := Unmarshal_v1 payload in
        (with_preparedResponse (Some (RespV1 newV1Response)) rw, (Some (ReqV1 apiV1Req), err))
      else (rw, (None, Some ErrUnsupportedRequestType))
  end.

(** ** Orchestration *)

(** A handler runs against the writer and the request; [None] stands for
    a handler that panics. *)
Definition Handler := lambdaHTTPResponseWriter -> Request -> option lambdaHTTPResponseWriter.

Definition handlerPanic : string := "panic in handler".

(** [return json.Marshal(v)]. *)
Definition returnMarshal (v : any) : Outcome RawMessage :=
  match Marshal v with
  | inl err => Err err
  | inr bs => Ok bs
  end.

Definition errorReply (err : error) : Outcome RawMessage :=
  returnMarshal (AnyLCD (mkLCD http.StatusInternalServerError err false)).

(** The function [lambdaHandler] of [ServeHTTP]: [Ok bs] is the return of
    [bs] with a nil error, [Err e] the return of the error [e]. *)
Definition lambdaHandler (handler : Handler) (req : RawMessage) : Outcome RawMessage :=
  let lambdaHTTPResponseWriter := newWriter in
  let '(lambdaHTTPResponseWriter, (disambiguatedRequest, err)) :=
    demuxAmbiguousRequest req lambdaHTTPResponseWriter in
  match err with
  | Some err => errorReply err
  | None =>
      match disambiguatedRequest with
      | None => Panic nilDereference
      | Some disambiguatedRequest =>
          match Canonize disambiguatedRequest with
          | Err err => errorReply err
          | Panic p => Panic p
          | Ok httpRequest =>
              match handler lambdaHTTPResponseWriter httpRequest with
              | None => Panic handlerPanic
              | Some lambdaHTTPResponseWriter =>
                  match TranscodeFrom_ambiguous lambdaHTTPResponseWriter with
                  | Err err => errorReply err
                  | Panic p => Panic p
                  | Ok bytes => Ok bytes
                  end
              end
          end
      end
  end.

(** The function [lambdaHandler] of the generic [serve], at the
    instantiation of each of [ServeAPIGatewayV2], [ServeAPIGateway] and
    [ServeALB]: the request is already typed, the response is a fresh
    envelope of the same format and the writer has no prepared response. *)
Definition newResp (req : lambdaHTTPRequest) : lambdaHTTPResponse :=
  match req with
  | ReqALB _ => RespALB newALBResponse
  | ReqV2 _ => RespV2 newV2Response
  | ReqV1 _ => RespV1 newV1Response
  end.

Definition newErrResp (req : lambdaHTTPRequest) (statusCode : Z) (err : error)
  : lambdaHTTPResponse :=
  match req with
  | ReqALB _ => RespALB (mkALBResponse statusCode "" None None err false)
  | ReqV2 _ => RespV2 (mkV2Response statusCode None None err false [])
  | ReqV1 _ => RespV1 (mkV1Response statusCode None None err false)
  end.

Definition serve (handler : Handler) (req : lambdaHTTPRequest) : Outcome lambdaHTTPResponse :=
  let lambdaHTTPResponseWriter := newWriter in
  match Canonize req with
  | Err err => Ok (newErrResp req http.StatusInternalServerError err)
  | Panic p => Panic p
  | Ok httpRequest =>
      match handler lambdaHTTPResponseWriter httpRequest with
      | None => Panic handlerPanic
      | Some lambdaHTTPResponseWriter =>
          match TranscodeFrom (newResp req) lambdaHTTPResponseWriter with
          | Err err => Ok (newErrResp req http.StatusInternalServerError err)
          | Panic p => Panic p
          | Ok resp => Ok resp
          end
      end
  end.

(** A handler that sets the status [s] and writes [b]. *)
Definition fixedHandler (s : Z) (b : list byte) : Handler :=
  fun w _ => Some (fst (Write (WriteHeader w s) (Some b))).

End Bridge.

(** ** Auxiliary folds used to describe the loops *)

(** A loop over map entries that stores [f k v] under [k] when it is defined
    and skips the entry otherwise. *)
Definition insertWhere {V W} (f : string -> V -> option W)
    (acc : gmap string W) (kv : string * V) : gmap string W :=
  match f kv.1 kv.2 with
  | Some w => <[kv.1 := w]> acc
  | None => acc
  end.

(** The single-value header a list of values yields. *)
Definition singleValue (k : string) (v : list string) : option string :=
  match v with
  | [v0] => Some v0
  | _ => None
  end.

(** The gateway-v2 header a list of values yields. *)
Definition joinedValue (k : string) (v : list string) : option string :=
  if decide (k = setCookieHeader) then None else Some (Join v ",").

(** Some key carries more than one value. *)
Definition multiValued (m : http.Header) : Prop :=
  map_Exists (fun _ v => (1 < length v)%nat) m.

(** The single-value headers map the gateway-v1 and load-balancer
    transcoders build. *)
Definition singleHeaders `{GoEnv} (m : http.Header) : gmap string string :=
  foldl (insertWhere singleValue) ∅ (range m).

(** The single-value headers map the gateway-v2 transcoder builds. *)
Definition joinedHeaders `{GoEnv} (m : http.Header) : gmap string string :=
  foldl (insertWhere joinedValue) ∅ (range m).

(** The cookie half of the loop of the gateway-v2 transcoder. *)
Definition cookieStep (cookies : list string) (kv : string * list string) : list string :=
  if decide (kv.1 = setCookieHeader) then cookies ++ kv.2 else cookies.

(** The body field and binary flag every transcoder computes for a fresh
    envelope. *)
Definition encodedBody (w : lambdaHTTPResponseWriter) : string * bool :=
  if String.eqb (http.Get (headerMap w) contentTypeHeader) mimeTypeApplicationOctetStream
  then (Base64.EncodeToString (body w), true)
  else (string_of_list_byte (body w), false).

(** The status code, body field and binary flag of an envelope. *)
Definition respStatusCode (r : lambdaHTTPResponse) : Z :=
  match r with
  | RespALB r => alb_StatusCode r
  | RespV2 r => v2_StatusCode r
  | RespV1 r => v1_StatusCode r
  end.

Definition respBody (r : lambdaHTTPResponse) : string :=
  match r with
  | RespALB r => alb_Body r
  | RespV2 r => v2_Body r
  | RespV1 r => v1_Body r
  end.

Definition respIsBase64Encoded (r : lambdaHTTPResponse) : bool :=
  match r with
  | RespALB r => alb_IsBase64Encoded r
  | RespV2 r => v2_IsBase64Encoded r
  | RespV1 r => v1_IsBase64Encoded r
  end.

(** The bytes a body field carries: base64-decoded when the flag is set. *)
Definition carriedBytes (bodyField : string) (isBase64Encoded : bool) : option (list byte) :=
  if isBase64Encoded then Base64.DecodeString bodyField
  else Some (list_byte_of_string bodyField).

(** The fresh envelopes [demuxAmbiguousRequest] and [serve] prepare. *)
Definition freshResponses : list lambdaHTTPResponse :=
  [RespALB newALBResponse; RespV2 newV2Response; RespV1 newV1Response].

(** The binary-body rule: flag and body field against the writer. *)
Definition binaryBodyRule (w : lambdaHTTPResponseWriter) (bodyField : string) (flag : bool) : Prop :=
  (flag = true ↔ http.Get (headerMap w) contentTypeHeader = mimeTypeApplicationOctetStream)
  ∧ bodyField = (if flag then Base64.EncodeToString (body w) else string_of_list_byte (body w)).

(** ** An instance to run the model on examples

    The functions below stand in for the library's: they are simple and
    total. Ranging visits the entries in the order of [map_to_list]. The
    properties stated for every instance do not depend on them. *)

Module Example.

Definition isHex (c : ascii) : bool :=
  textproto.isDigit c || textproto.between "a" "f" c || textproto.between "A" "F" c.

Definition hexValue (c : ascii) : nat :=
  if textproto.isDigit c then nat_of_ascii c - 48
  else if textproto.between "a" "f" c then nat_of_ascii c - 87
  else nat_of_ascii c - 55.

(** A text between double quotes. *)
Definition quoted (s : string) : string :=
  String (ascii_of_nat 34) (s +:+ String (ascii_of_nat 34) EmptyString).

(** Percent-decoding: a [%] must be followed by two hexadecimal digits. *)
Fixpoint pathUnescape (s : string) : error + string :=
  match s with
  | EmptyString => inr EmptyString
  | String c r =>
      if Ascii.eqb c "%"%char then
        match r with
        | String h1 (String h2 r') =>
            if isHex h1 && isHex h2 then
              match pathUnescape r' with
              | inr t => inr (String (ascii_of_nat (hexValue h1 * 16 + hexValue h2)) t)
              | inl e => inl e
              end
            else inl ("invalid URL escape " +:+ quoted (String c (String h1 (String h2 EmptyString))))
        | _ => inl ("invalid URL escape " +:+ quoted s)
        end
      else
        match pathUnescape r with
        | inr t => inr (String c t)
        | inl e => inl e
        end
  end.

Definition isText (b : byte) : bool := (32 <=? Byte.to_nat b)%nat && (Byte.to_nat b <? 127)%nat.

Definition detectContentType (d : list byte) : string :=
  if forallb isText d then "text/plain; charset=utf-8" else "application/octet-stream".

Definition statusText (s : Z) : string :=
  if decide (s = 200) then "OK"
  else if decide (s = 404) then "Not Found"
  else if decide (s = 500) then "Internal Server Error"
  else "".

Definition valuesEncode (params : Values) : string :=
  Join (map (fun kv => Join (map (fun v => kv.1 +:+ "=" +:+ v) kv.2) "&") (map_to_list params)) "&".

Definition withQuery (path query : string) : string :=
  if String.eqb query "" then path else path +:+ "?" +:+ query.

Definition urlString (u : URL) : string :=
  (if String.eqb (Host u) "" then "" else "//" +:+ Host u) +:+ withQuery (Path u) (RawQuery u).

Definition urlRequestURI (u : URL) : string := withQuery (Path u) (RawQuery u).

Definition requestLine (method url : string) : error + (string * URL * string) :=
  inr (if String.eqb method "" then "GET" else method, mkURL "" url "", "").

(** Requests of the three formats. *)
Definition albReq : albRequest :=
  mkALBRequest ∅ {[ "x-forwarded-for" := "198.51.100.4, 10.0.0.9"; "host" := "lb.example.org" ]}
    ∅ "/hello" false "ping" "GET".

Definition v2Req : apiGatewayV2Request :=
  mkV2Request "" ∅ {[ "host" := "api.example.org" ]} "/hello" false "ping" "GET" "203.0.113.7".

Definition v1Req : apiGatewayV1Request :=
  mkV1Request ∅ ∅ {[ "accept" := "text/html" ]}
    {[ "accept" := ["text/html"; "application/json"] ]}
    "/hello" false "ping" "GET" "203.0.113.7".

(** The same requests with the binary flag set and the body ["hello"]
    in base64. *)
Definition albReqBinary : albRequest :=
  mkALBRequest ∅ ∅ ∅ "/hello" true "aGVsbG8=" "POST".
Definition v2ReqBinary : apiGatewayV2Request :=
  mkV2Request "" ∅ ∅ "/hello" true "aGVsbG8=" "POST" "203.0.113.7".
Definition v1ReqBinary : apiGatewayV1Request :=
  mkV1Request ∅ ∅ ∅ ∅ "/hello" true "aGVsbG8=" "POST" "203.0.113.7".

(** Payloads: the stand-in for [json.Unmarshal] knows four documents, named
    by their text, and rejects every other text. *)
Definition payloadALB : RawMessage := list_byte_of_string "alb".
Definition payloadV2 : RawMessage := list_byte_of_string "v2".
Definition payloadV1 : RawMessage := list_byte_of_string "v1".
Definition payloadBadPath : RawMessage := list_byte_of_string "v2-bad-path".
Definition payloadOther : RawMessage := list_byte_of_string "{}".

Definition v2ReqBadPath : apiGatewayV2Request :=
  mkV2Request "" ∅ ∅ "/a%zz" false "" "GET" "203.0.113.7".

Definition unmarshalAmbiguous (payload : RawMessage) : error + ambiguousLambdaRequest :=
  let text := string_of_list_byte payload in
  if String.eqb text "alb" then inr (mkAmbiguous "arn:aws:elasticloadbalancing:tg" "" "")
  else if String.eqb text "v2" then inr (mkAmbiguous "" "123456789012" "2.0")
  else if String.eqb text "v2-bad-path" then inr (mkAmbiguous "" "123456789012" "2.0")
  else if String.eqb text "v1" then inr (mkAmbiguous "" "123456789012" "")
  else if String.eqb text "{}" then inr (mkAmbiguous "" "" "")
  else inl "invalid character".

Definition unmarshalV2 (payload : RawMessage) : apiGatewayV2Request * option error :=
  if String.eqb (string_of_list_byte payload) "v2-bad-path" then (v2ReqBadPath, None)
  else (v2Req, None).

Definition showAny (v : any) : string :=
  match v with
  | AnyLCD r => lcd_Body r
  | AnyResponse (RespALB r) => alb_Body r
  | AnyResponse (RespV2 r) => v2_Body r
  | AnyResponse (RespV1 r) => v1_Body r
  end.

Definition marshal (v : any) : error + RawMessage := inr (list_byte_of_string (showAny v)).

Definition env : GoEnv := {|
  range := fun V m => map_to_list m;
  range_perm := fun V m => reflexivity (map_to_list m);
  DetectContentType := detectContentType;
  StatusText := statusText;
  PathUnescape := pathUnescape;
  Values_Encode := valuesEncode;
  URL_String := urlString;
  URL_RequestURI := urlRequestURI;
  newRequestLine := requestLine;
  Unmarshal_ambiguous := unmarshalAmbiguous;
  Unmarshal_alb := fun _ => (albReq, None);
  Unmarshal_v2 := unmarshalV2;
  Unmarshal_v1 := fun _ => (v1Req, None);
  Marshal := marshal;
  Marshal_lcd := fun r => ex_intro _ (list_byte_of_string (lcd_Body r)) eq_refl
|}.

Definition pong : list byte := list_byte_of_string "pong".

(** Writers as a handler can leave them. *)
Definition writerTwoValues : lambdaHTTPResponseWriter :=
  mkWriter (Some {[ "Vary" := ["Accept"; "Origin"] ]}) [] 200 None.

Definition writerTwoCookies : lambdaHTTPResponseWriter :=
  mkWriter (Some {[ "Set-Cookie" := ["a=1"; "b=2"]; "X-Id" := ["7"] ]}) [] 200 None.

(** Further requests and writers for the examples. *)
Definition v1ReqQuery : apiGatewayV1Request :=
  mkV1Request {[ "page" := "2" ]} {[ "page" := ["2"]; "tag" := ["a"; "b"] ]}
    ∅ {[ "Accept" := ["text/html"; "application/json"] ]}
    "/items" false "" "GET" "203.0.113.7".

Definition albReqMulti : albRequest :=
  mkALBRequest ∅ ∅ {[ "x-forwarded-for" := ["198.51.100.4, 10.0.0.9"] ]}
    "/hello" false "" "GET".

Definition writerWithHeaders : lambdaHTTPResponseWriter :=
  mkWriter (Some {[ "Content-Type" := ["application/json"]; "X-Id" := ["7"] ]}) [] 0 None.

Definition v1ResponseWithMaps : apiGatewayV1Response :=
  mkV1Response 0 None (Some ∅) "" false.

End Example.

(** ** Vocabulary of the statements *)

(** The binary flag, the body field and the source of the remote address of
    a request envelope. *)
Definition reqIsBase64Encoded (r : lambdaHTTPRequest) : bool :=
  match r with
  | ReqALB r => alb_ReqIsBase64Encoded r
  | ReqV2 r => v2_ReqIsBase64Encoded r
  | ReqV1 r => v1_ReqIsBase64Encoded r
  end.

Definition reqBody (r : lambdaHTTPRequest) : string :=
  match r with
  | ReqALB r => alb_ReqBody r
  | ReqV2 r => v2_ReqBody r
  | ReqV1 r => v1_ReqBody r
  end.

(** The stage of [lambdaHandler] that returned an error, and the error. *)
Inductive stageFailure `{GoEnv} (handler : Handler) (req : RawMessage) : error -> Prop :=
  | classification_fails rw r err :
      demuxAmbiguousRequest req newWriter = (rw, (r, Some err)) ->
      stageFailure handler req err
  | canonicalization_fails rw r err :
      demuxAmbiguousRequest req newWriter = (rw, (Some r, None)) ->
      Canonize r = Err err ->
      stageFailure handler req err
  | transcoding_fails rw r httpRequest w err :
      demuxAmbiguousRequest req newWriter = (rw, (Some r, None)) ->
      Canonize r = Ok httpRequest ->
      handler rw httpRequest = Some w ->
      TranscodeFrom_ambiguous w = Err err ->
      stageFailure handler req err.

(** Where [Canonize] takes the remote address from. *)
Definition reqRemoteAddr (r : lambdaHTTPRequest) : string :=
  match r with
  | ReqALB r => sourceIP r
  | ReqV2 r => v2_HTTP_SourceIP r
  | ReqV1 r => v1_Identity_SourceIP r
  end.

(** A fresh envelope is transcoded by the binary-body rule, or the
    transcoder panics on a multi-valued header (never for gateway v2). *)
Definition emitsByRule `{GoEnv} (w : lambdaHTTPResponseWriter) (fresh : lambdaHTTPResponse) : Prop :=
  match TranscodeFrom fresh w with
  | Ok e => binaryBodyRule w (respBody e) (respIsBase64Encoded e)
  | Err _ => False
  | Panic _ => multiValued (headerMap w) ∧ fresh ≠ RespV2 newV2Response
  end.

(** A handler that leaves [hs] in the header map, then sets the status [s]
    and writes [b]. *)
Definition headerHandler `{GoEnv} (hs : http.Header) (s : Z) (b : list byte) : Handler :=
  fun w _ =>
    let '(_, w) := Header_ w in
    let w := with_header (Some hs) w in
    Some (fst (Write (WriteHeader w s) (Some b))).

(** ** Vocabulary of the further properties *)

(** The status a sequence of calls finalizes on a writer not yet finalized:
    that of the first call that is a [Write], a [Flush] or a [WriteHeader]
    with a non-zero code; 0 when there is none. *)
Fixpoint firstStatus (cs : list call) : Z :=
  match cs with
  | [] => 0
  | CallWriteHeader s :: cs => if decide (s = 0) then firstStatus cs else s
  | CallWrite _ :: _ => 200
  | CallFlush :: _ => 200
  end.

(** The multi-value header a list of values yields. *)
Definition severalValues (k : string) (v : list string) : option (list string) :=
  if decide (1 < length v)%nat then Some v else None.


(** The method field of a request envelope. *)
Definition reqMethod (r : lambdaHTTPRequest) : string :=
  match r with
  | ReqALB r => alb_HTTPMethod r
  | ReqV2 r => v2_HTTP_Method r
  | ReqV1 r => v1_HTTPMethod r
  end.

(** The format of a request and of a response envelope. *)
Inductive format := LoadBalancer | GatewayV2 | GatewayV1.

Definition requestFormat (r : lambdaHTTPRequest) : format :=
  match r with
  | ReqALB _ => LoadBalancer
  | ReqV2 _ => GatewayV2
  | ReqV1 _ => GatewayV1
  end.

Definition responseFormat (r : lambdaHTTPResponse) : format :=
  match r with
  | RespALB _ => LoadBalancer
  | RespV2 _ => GatewayV2
  | RespV1 _ => GatewayV1
  end.

(** A loop over map entries that stores under [k] what [f] makes of the
    value already there and of the entry's value, and skips the entry when
    [f] is undefined. *)
Definition upsert {V W} (f : option W -> V -> option W)
    (acc : gmap string W) (kv : string * V) : gmap string W :=
  match f (acc !! kv.1) kv.2 with
  | Some w => <[kv.1 := w]> acc
  | None => acc
  end.

(** What [params.Add(k, v)] stores under [k]. *)
Definition appendOne (old : option (list string)) (v : string) : option (list string) :=
  Some (default [] old ++ [v]).

(** What the inner loop of the multi-value parameters leaves under [k]:
    nothing new for an empty list. *)
Definition appendAll (old : option (list string)) (vs : list string) : option (list string) :=
  match vs with
  | [] => None
  | _ => Some (default [] old ++ vs)
  end.

(** The query parameters the gateway-v1 canonicalizer encodes. *)
Definition v1Params `{GoEnv} (r : apiGatewayV1Request) : Values :=
  addMultiParams (addParams ∅ (v1_QueryStringParameters r))
    (v1_MultiValueQueryStringParameters r).

(** The text holds no comma. *)
Definition commaFree (s : string) : Prop := ","%char ∉ list_ascii_of_string s.

(** ** Options and entry points *)

(** [lambda.Handler], as the function it invokes. *)
Definition lambda_Handler := RawMessage -> Outcome RawMessage.

(** [for _, middleware := range middleware { handler = middleware(handler) }]. *)
Definition wrap (handler : Handler) (middleware : list (Handler -> Handler)) : Handler :=
  foldl (fun handler middleware => middleware handler) handler middleware.

Section Options.
Context `{GoEnv}.
(** [nethttp.StrictHTTPMiddlewareFunc]. *)
Variable StrictHTTPMiddlewareFunc : Type.

Record apiOptions := mkOptions {
  lambdaMiddlewares : list (lambda_Handler -> lambda_Handler);
  strictMiddlewares : list StrictHTTPMiddlewareFunc;
  lowLevelMiddlewares : list (Handler -> Handler)
}.

(** [APIOption], a function on a pointer to the options, as the update it
    makes. *)
Definition APIOption := apiOptions -> apiOptions.

Definition APIMiddleware (middlewares : list StrictHTTPMiddlewareFunc) : APIOption :=
  fun o => mkOptions (lambdaMiddlewares o) (strictMiddlewares o ++ middlewares)
             (lowLevelMiddlewares o).

Definition HTTPMiddleware (middlewares : list (Handler -> Handler)) : APIOption :=
  fun o => mkOptions (lambdaMiddlewares o) (strictMiddlewares o)
             (lowLevelMiddlewares o ++ middlewares).

Definition LambdaMiddleware (middlewares : list (lambda_Handler -> lambda_Handler)) : APIOption :=
  fun o => mkOptions (lambdaMiddlewares o ++ middlewares) (strictMiddlewares o)
             (lowLevelMiddlewares o).

(** [ServeHTTP]: the registered function. *)
Definition ServeHTTP (handler : Handler) (middleware : list (Handler -> Handler))
  : lambda_Handler :=
  lambdaHandler (wrap handler middleware).

Definition ServeAPI {STRICTAPI API : Type} (api : STRICTAPI)
    (configureHandler : STRICTAPI -> list StrictHTTPMiddlewareFunc -> API)
    (serve : API -> Handler) (opts : list APIOption) : lambda_Handler :=
  let useOpts := foldl (fun useOpts opt => opt useOpts) (mkOptions [] [] []) opts in
  let handler := serve (configureHandler api (strictMiddlewares useOpts)) in
  let handler := wrap handler (lowLevelMiddlewares useOpts) in
  ServeHTTP handler (lowLevelMiddlewares useOpts).

(** The options a caller can build. *)
Inductive optionCall :=
  | WithAPIMiddleware (middlewares : list StrictHTTPMiddlewareFunc)
  | WithHTTPMiddleware (middlewares : list (Handler -> Handler))
  | WithLambdaMiddleware (middlewares : list (lambda_Handler -> lambda_Handler)).

Definition optionOf (c : optionCall) : APIOption :=
  match c with
  | WithAPIMiddleware ms => APIMiddleware ms
  | WithHTTPMiddleware ms => HTTPMiddleware ms
  | WithLambdaMiddleware ms => LambdaMiddleware ms
  end.

(** The middlewares of each kind a list of options carries, in order. *)
Definition strictOf (cs : list optionCall) : list StrictHTTPMiddlewareFunc :=
  concat (map (fun c => match c with WithAPIMiddleware ms => ms | _ => [] end) cs).

Definition lowLevelOf (cs : list optionCall) : list (Handler -> Handler) :=
  concat (map (fun c => match c with WithHTTPMiddleware ms => ms | _ => [] end) cs).

Definition lambdaOf (cs : list optionCall) : list (lambda_Handler -> lambda_Handler) :=
  concat (map (fun c => match c with WithLambdaMiddleware ms => ms | _ => [] end) cs).

End Options.

(** [ServeAPIGatewayV2], [ServeAPIGateway] and [ServeALB]: the generic
    [serve] at each format, on the typed event. *)
Definition ServeAPIGatewayV2 `{GoEnv} (handler : Handler) (middleware : list (Handler -> Handler))
  : apiGatewayV2Request -> Outcome lambdaHTTPResponse :=
  fun req => serve (wrap handler middleware) (ReqV2 req).

Definition ServeAPIGateway `{GoEnv} (handler : Handler) (middleware : list (Handler -> Handler))
  : apiGatewayV1Request -> Outcome lambdaHTTPResponse :=
  fun req => serve (wrap handler middleware) (ReqV1 req).

Definition ServeALB `{GoEnv} (handler : Handler) (middleware : list (Handler -> Handler))
  : albRequest -> Outcome lambdaHTTPResponse :=
  fun req => serve (wrap handler middleware) (ReqALB req).

(** * Properties *)

(** ** Round trip of the base64 model *)

Module Base64Facts.
Import Base64.

Lemma sextet_of_char_of_sextet (s : sextet) :
  sextet_of_char (char_of_sextet s) = Some s.
Proof.
  destruct s as [[[[[b5 b4] b3] b2] b1] b0].
  destruct b5, b4, b3, b2, b1, b0; vm_compute; reflexivity.
Qed.

Lemma char_of_sextet_not_pad (s : sextet) : is_pad (char_of_sextet s) = false.
Proof.
  destruct s as [[[[[b5 b4] b3] b2] b1] b0].
  destruct b5, b4, b3, b2, b1, b0; vm_compute; reflexivity.
Qed.

Lemma ungroup3_group3 (x y z : ascii) : ungroup3 (group3 x y z) = (x, y, z).
Proof. destruct x, y, z; reflexivity. Qed.

Lemma list_ind3 {A} (P : list A -> Prop) :
  P [] -> (forall x, P [x]) -> (forall x y, P [x; y]) ->
  (forall x y z r, P r -> P (x :: y :: z :: r)) ->
  forall l, P l.
Proof.
  intros H0 H1 H2 H3.
  fix IH 1.
  intros [|x [|y [|z r]]]; [exact H0 | apply H1 | apply H2 | apply H3, IH].
Qed.

Lemma encode_ascii_nil_inv (l : list ascii) : encode_ascii l = EmptyString -> l = [].
Proof.
  destruct l as [|x [|y [|z r]]]; [reflexivity | | |]; cbn;
    destruct x as [x0 x1 x2 x3 x4 x5 x6 x7]; try (destruct y as [y0 y1 y2 y3 y4 y5 y6 y7]);
    try (destruct z as [z0 z1 z2 z3 z4 z5 z6 z7]); cbn; discriminate.
Qed.

Lemma decode_encode_ascii (l : list ascii) : decode_ascii (encode_ascii l) = Some l.
Proof.
  induction l as [|x|x y|x y z r IH] using list_ind3.
  - reflexivity.
  - destruct x as [x0 x1 x2 x3 x4 x5 x6 x7]. cbn [encode_ascii group3 zero decode_ascii].
    rewrite !sextet_of_char_of_sextet. reflexivity.
  - destruct x as [x0 x1 x2 x3 x4 x5 x6 x7], y as [y0 y1 y2 y3 y4 y5 y6 y7].
    cbn [encode_ascii group3 zero decode_ascii].
    rewrite char_of_sextet_not_pad, !sextet_of_char_of_sextet. reflexivity.
  - destruct x as [x0 x1 x2 x3 x4 x5 x6 x7], y as [y0 y1 y2 y3 y4 y5 y6 y7],
      z as [z0 z1 z2 z3 z4 z5 z6 z7].
    cbn [encode_ascii group3 decode_ascii].
    destruct (encode_ascii r) eqn:E.
    + apply encode_ascii_nil_inv in E. subst r.
      rewrite char_of_sextet_not_pad, !sextet_of_char_of_sextet. reflexivity.
    + rewrite !sextet_of_char_of_sextet. cbn [mbind option_bind].
      rewrite IH. reflexivity.
Qed.

Lemma DecodeString_EncodeToString (b : list byte) :
  DecodeString (EncodeToString b) = Some b.
Proof.
  unfold DecodeString, EncodeToString. rewrite decode_encode_ascii. cbn.
  f_equal. rewrite map_map. rewrite <- (map_id b) at 2.
  apply map_ext; intros a; apply byte_of_ascii_of_byte.
Qed.

End Base64Facts.

(** ** Header keys and helpers on examples *)

Example canon_host : http.CanonicalHeaderKey "host" = "Host".
Proof. reflexivity. Qed.
Example canon_ct : http.CanonicalHeaderKey "content-type" = "Content-Type".
Proof. reflexivity. Qed.
Example canon_sp : http.CanonicalHeaderKey "x y" = "x y".
Proof. reflexivity. Qed.
Example canon_up : http.CanonicalHeaderKey "X-FORWARDED-for" = "X-Forwarded-For".
Proof. reflexivity. Qed.
Example before1 : beforeComma "1.2.3.4, 5.6.7.8" = "1.2.3.4".
Proof. reflexivity. Qed.
Example get1 : http.Get (http.Add (http.Add ∅ "host" "a") "HOST" "b") "hoSt" = "a".
Proof. vm_compute. reflexivity. Qed.

(** ** Ranging over a map *)

Section RangeFacts.
Context `{GoEnv}.

Lemma elem_of_range {V} (m : gmap string V) (k : string) (v : V) :
  (k, v) ∈ range m ↔ m !! k = Some v.
Proof. rewrite (range_perm V m). apply elem_of_map_to_list. Qed.

Lemma NoDup_fst_range {V} (m : gmap string V) : NoDup (range m).*1.
Proof. rewrite (range_perm V m). apply NoDup_fst_map_to_list. Qed.

Lemma range_empty {V} : range (∅ : gmap string V) = [].
Proof.
  apply Permutation_nil_r. rewrite (range_perm V ∅), map_to_list_empty. done.
Qed.

End RangeFacts.

(** Two entries of a list with distinct keys that carry the same key are
    the same entry. *)
Lemma NoDup_fst_cons_inv {V} (k : string) (v : V) (l : list (string * V)) :
  NoDup ((k, v) :: l).*1 → (∀ v', (k, v') ∉ l) ∧ NoDup l.*1.
Proof.
  intros Hnd. apply NoDup_cons in Hnd as [Hnotin Hnd]. split; [|done].
  intros v' Hin. apply Hnotin. apply list_elem_of_fmap. by exists (k, v').
Qed.

(** ** The response writer *)

Section WriterFacts.
Context `{GoEnv}.

Lemma writeHeaderLine_finalized l data :
  statusCode l ≠ 0 → writeHeaderLine l data = l.
Proof. intros Hs. unfold writeHeaderLine. by rewrite decide_True. Qed.

Lemma writeHeaderLine_statusCode l data :
  statusCode (writeHeaderLine l data) = if decide (statusCode l ≠ 0) then statusCode l else 200.
Proof.
  unfold writeHeaderLine. case_decide; [done|].
  unfold Header_. by destruct (header (with_statusCode 200 l)).
Qed.

Lemma writeHeaderLine_body l data : body (writeHeaderLine l data) = body l.
Proof.
  unfold writeHeaderLine. case_decide; [done|].
  unfold Header_. by destruct l as [[?|] ? ? ?].
Qed.

Lemma writeHeaderLine_preparedResponse l data :
  preparedResponse (writeHeaderLine l data) = preparedResponse l.
Proof.
  unfold writeHeaderLine. case_decide; [done|].
  unfold Header_. by destruct l as [[?|] ? ? ?].
Qed.

Lemma Write_fst l data :
  (Write l data).1 = with_body (body l ++ elems data) (writeHeaderLine l data).
Proof. unfold Write, Buffer_Write. cbn. by rewrite writeHeaderLine_body. Qed.

(** [Write] reports the length of its argument and no error. *)
Lemma Write_snd l data : (Write l data).2 = (Z.of_nat (length (elems data)), None).
Proof. reflexivity. Qed.

(** A call on a finalized writer changes nothing but the body. *)
Lemma perform_finalized l c :
  statusCode l ≠ 0 →
  perform l c = with_body (body l ++ written [c]) l.
Proof.
  intros Hs. destruct l as [h b s p]. cbn in Hs.
  destruct c as [s'|d|]; cbn [perform].
  - unfold WriteHeader. rewrite decide_True by done.
    unfold written, with_body; cbn. by rewrite app_nil_r.
  - rewrite Write_fst, writeHeaderLine_finalized by done.
    unfold written, with_body; cbn. by rewrite app_nil_r.
  - unfold Flush. rewrite decide_True by done.
    unfold written, with_body; cbn. by rewrite app_nil_r.
Qed.

Lemma written_cons c cs : written (c :: cs) = written [c] ++ written cs.
Proof. unfold written. cbn. by rewrite app_nil_r. Qed.

Lemma performAll_finalized l cs :
  statusCode l ≠ 0 →
  performAll l cs = with_body (body l ++ written cs) l.
Proof.
  revert l. induction cs as [|c cs IH]; intros l Hs.
  - destruct l; unfold with_body, written; cbn. by rewrite app_nil_r.
  - unfold performAll in *. cbn [foldl]. rewrite perform_finalized by done.
    rewrite IH by exact Hs. rewrite (written_cons c cs).
    destruct l; unfold with_body; cbn [header body statusCode preparedResponse].
    by rewrite <- app_assoc.
Qed.

(** [Write] and [Flush] always leave a finalized writer; [WriteHeader]
    does unless it is handed the sentinel 0 on a writer not yet finalized. *)
Lemma perform_finalizes l c :
  (∀ s, c = CallWriteHeader s → s ≠ 0) → statusCode (perform l c) ≠ 0.
Proof.
  intros Hc. destruct c as [s|d|]; cbn [perform].
  - unfold WriteHeader. case_decide; [done|]. cbn. by apply Hc.
  - rewrite Write_fst. cbn. rewrite writeHeaderLine_statusCode. by case_decide.
  - unfold Flush, WriteHeader. repeat case_decide; done.
Qed.

(** C4. Once the status is finalized (the status code is no longer the
    sentinel 0), which every first [Write] and [Flush] and every first
    [WriteHeader] with a non-zero code brings about, any further sequence
    of [WriteHeader], [Write] and [Flush] calls leaves the status code and
    the header map (so the content-type decision) as they are, and the body
    grows by exactly the bytes written, in order. *)
Theorem finalized_status_is_stable (l : lambdaHTTPResponseWriter) (first : call)
    (rest : list call) :
  statusCode (perform l first) ≠ 0 →
  statusCode (performAll (perform l first) rest) = statusCode (perform l first)
  ∧ header (performAll (perform l first) rest) = header (perform l first)
  ∧ body (performAll (perform l first) rest) = body (perform l first) ++ written rest.
Proof.
  intros Hs. rewrite performAll_finalized by done.
  by destruct (perform l first).
Qed.

End WriterFacts.

(** A write on a fresh writer finalizes the status 200 and the sniffed
    content type; a later status and a later write change neither. *)
Lemma finalized_status_is_stable_witness :
  statusCode (@perform Example.env newWriter (CallWrite (Some Example.pong))) ≠ 0
  ∧ statusCode (@performAll Example.env
                  (@perform Example.env newWriter (CallWrite (Some Example.pong)))
                  [CallWriteHeader 404; CallWrite (Some [x00%byte])])
    = statusCode (@perform Example.env newWriter (CallWrite (Some Example.pong))).
Proof.
  assert (Hs : statusCode (@perform Example.env newWriter (CallWrite (Some Example.pong))) ≠ 0).
  { vm_compute. discriminate. }
  split; [exact Hs|].
  exact (proj1 (@finalized_status_is_stable Example.env newWriter
                  (CallWrite (Some Example.pong))
                  [CallWriteHeader 404; CallWrite (Some [x00%byte])] Hs)).
Defined.

(** ** Loops that fill a map *)

Section FoldFacts.
Context {V W : Type} (f : string -> V -> option W).

Lemma foldl_insertWhere_lookup (l : list (string * V)) (acc : gmap string W) (k : string) :
  NoDup l.*1 →
  (∀ v w, (k, v) ∈ l → f k v = Some w → foldl (insertWhere f) acc l !! k = Some w)
  ∧ ((∀ v, (k, v) ∈ l → f k v = None) → foldl (insertWhere f) acc l !! k = acc !! k).
Proof.
  revert acc. induction l as [|[k' v'] l IH]; intros acc Hnd.
  { split; [intros v w Hin; by apply elem_of_nil in Hin | done]. }
  apply NoDup_fst_cons_inv in Hnd as [Hfresh Hnd].
  cbn [foldl]. destruct (IH (insertWhere f acc (k', v')) Hnd) as [IH1 IH2]. split.
  - intros v w Hin Hf. apply elem_of_cons in Hin as [Heq|Hin]; [|by eapply IH1].
    injection Heq as -> ->. rewrite IH2.
    + unfold insertWhere; cbn. rewrite Hf. apply lookup_insert_eq.
    + intros v'' Hin. by apply Hfresh in Hin.
  - intros Hnone. rewrite IH2.
    + unfold insertWhere; cbn. destruct (f k' v') as [w|] eqn:Hf; [|done].
      destruct (decide (k' = k)) as [->|Hne]; [|by rewrite lookup_insert_ne].
      rewrite Hnone in Hf; [done | apply elem_of_cons; by left].
    + intros v Hin. apply Hnone. apply elem_of_cons; by right.
Qed.

Lemma range_insertWhere_lookup `{GoEnv} (m : gmap string V) (acc : gmap string W) (k : string) :
  foldl (insertWhere f) acc (range m) !! k =
    match m !! k ≫= f k with
    | Some w => Some w
    | None => acc !! k
    end.
Proof.
  destruct (foldl_insertWhere_lookup (range m) acc k (NoDup_fst_range m)) as [H1 H2].
  destruct (m !! k) as [v|] eqn:Hm; cbn.
  - destruct (f k v) as [w|] eqn:Hf.
    + eapply H1; [by apply elem_of_range | done].
    + apply H2. intros v' Hin. apply elem_of_range in Hin. by simplify_eq.
  - apply H2. intros v' Hin. apply elem_of_range in Hin. by simplify_eq.
Qed.

End FoldFacts.

(** ** Transcoders *)

Section TranscodeFacts.
Context `{GoEnv}.

Lemma foldl_place_Panic p l : foldl place (Panic p) l = Panic p.
Proof. induction l as [|kv l IH]; [done | exact IH]. Qed.

Lemma place_nil_multi hs (kv : string * list string) :
  place (Ok (hs, None)) kv =
    if decide (1 < length kv.2)%nat then Panic nilMapAssignment
    else Ok (insertWhere singleValue hs kv, None).
Proof.
  destruct kv as [k v]. unfold place, insertWhere, singleValue; cbn.
  case_decide; [done|]. by destruct v as [|v0 [|v1 v]].
Qed.

Lemma foldl_place_nil_multi (l : list (string * list string)) hs :
  foldl place (Ok (hs, None)) l =
    if decide (Exists (fun kv => 1 < length kv.2)%nat l) then Panic nilMapAssignment
    else Ok (foldl (insertWhere singleValue) hs l, None).
Proof.
  revert hs. induction l as [|kv l IH]; intros hs.
  { cbn. rewrite decide_False; [done | intros Hex; by apply Exists_nil in Hex]. }
  cbn [foldl]. rewrite place_nil_multi.
  destruct (decide (1 < length kv.2)%nat) as [Hkv|Hkv].
  - rewrite foldl_place_Panic, decide_True; [done | by apply Exists_cons_hd].
  - rewrite IH. destruct (decide (Exists _ l)) as [Hl|Hl].
    + rewrite decide_True; [done | by apply Exists_cons_tl].
    + rewrite decide_False; [done|]. rewrite Exists_cons. tauto.
Qed.

Lemma Exists_range_multiValued (m : http.Header) :
  Exists (fun kv => 1 < length kv.2)%nat (range m) ↔ multiValued m.
Proof.
  unfold multiValued, map_Exists. rewrite Exists_exists. split.
  - intros [[k v] [Hin Hlen]]. exists k, v. by rewrite <- elem_of_range.
  - intros (k & v & Hm & Hlen). exists (k, v). by rewrite elem_of_range.
Qed.

Lemma range_place_nil_multi (m : http.Header) :
  foldl place (Ok (∅, None)) (range m) =
    if decide (multiValued m) then Panic nilMapAssignment
    else Ok (singleHeaders m, None).
Proof.
  rewrite foldl_place_nil_multi. unfold singleHeaders.
  destruct (decide (multiValued m)) as [Hm|Hm].
  - rewrite decide_True; [done | by apply Exists_range_multiValued].
  - rewrite decide_False; [done | by rewrite Exists_range_multiValued].
Qed.

Lemma singleHeaders_lookup (m : http.Header) (k : string) :
  singleHeaders m !! k = m !! k ≫= singleValue k.
Proof.
  unfold singleHeaders. rewrite range_insertWhere_lookup, lookup_empty.
  by destruct (m !! k ≫= singleValue k).
Qed.

(** What the gateway-v1 transcoder makes of a fresh envelope. *)
Lemma TranscodeFrom_v1_fresh w :
  TranscodeFrom_v1 newV1Response w =
    if decide (multiValued (headerMap w)) then Panic nilMapAssignment
    else Ok (mkV1Response (statusCode w) (Some (singleHeaders (headerMap w))) None
               (encodedBody w).1 (encodedBody w).2).
Proof.
  unfold TranscodeFrom_v1, encodedBody. cbn [v1_MultiValueHeaders newV1Response].
  rewrite range_place_nil_multi. case_decide; [done|].
  by destruct (String.eqb _ _).
Qed.

(** What the load-balancer transcoder makes of a fresh envelope. *)
Lemma TranscodeFrom_alb_fresh w :
  TranscodeFrom_alb newALBResponse w =
    if decide (multiValued (headerMap w)) then Panic nilMapAssignment
    else Ok (mkALBResponse (statusCode w) (StatusText (statusCode w))
               (Some (singleHeaders (headerMap w))) None
               (encodedBody w).1 (encodedBody w).2).
Proof.
  unfold TranscodeFrom_alb, encodedBody. cbn [alb_MultiValueHeaders newALBResponse].
  rewrite range_place_nil_multi. case_decide; [done|].
  by destruct (String.eqb _ _).
Qed.

Lemma encodedBody_rule w : binaryBodyRule w (encodedBody w).1 (encodedBody w).2.
Proof.
  unfold binaryBodyRule, encodedBody.
  destruct (String.eqb _ _) eqn:E; cbn.
  - apply String.eqb_eq in E. by split.
  - apply String.eqb_neq in E. split; [|done]. split; [done | intros; by exfalso].
Qed.

Lemma foldl_v2_place (l : list (string * list string)) hs cookies :
  foldl v2_place (hs, cookies) l =
    (foldl (insertWhere joinedValue) hs l, foldl cookieStep cookies l).
Proof.
  revert hs cookies. induction l as [|[k v] l IH]; intros hs cookies; [done|].
  cbn [foldl]. unfold v2_place at 2, insertWhere at 2, joinedValue at 2, cookieStep at 2.
  cbn [fst snd]. case_decide; apply IH.
Qed.

Lemma foldl_cookieStep (l : list (string * list string)) cookies :
  NoDup l.*1 →
  (∀ v, (setCookieHeader, v) ∈ l → foldl cookieStep cookies l = cookies ++ v)
  ∧ ((∀ v, (setCookieHeader, v) ∉ l) → foldl cookieStep cookies l = cookies).
Proof.
  revert cookies. induction l as [|[k v] l IH]; intros cookies Hnd.
  { split; [intros v Hin; by apply elem_of_nil in Hin | done]. }
  apply NoDup_fst_cons_inv in Hnd as [Hfresh Hnd].
  cbn [foldl]. destruct (decide (k = setCookieHeader)) as [->|Hk].
  - assert (cookieStep cookies (setCookieHeader, v) = cookies ++ v) as ->.
    { unfold cookieStep; cbn. by rewrite decide_True. }
    destruct (IH (cookies ++ v) Hnd) as [_ IH2]. split.
    + intros v' Hin. apply elem_of_cons in Hin as [Heq|Hin].
      * injection Heq as ->. apply IH2. intros v'' Hin. by apply Hfresh in Hin.
      * by apply Hfresh in Hin.
    + intros Hnone. exfalso. apply (Hnone v), elem_of_cons. by left.
  - assert (cookieStep cookies (k, v) = cookies) as ->.
    { unfold cookieStep; cbn. by rewrite decide_False. }
    destruct (IH cookies Hnd) as [IH1 IH2]. split.
    + intros v' Hin. apply elem_of_cons in Hin as [Heq|Hin]; [|by apply IH1].
      injection Heq as Heq _. by symmetry in Heq.
    + intros Hnone. apply IH2. intros v' Hin. apply (Hnone v'), elem_of_cons. by right.
Qed.

Lemma range_cookieStep (m : http.Header) :
  foldl cookieStep [] (range m) = default [] (m !! setCookieHeader).
Proof.
  destruct (foldl_cookieStep (range m) [] (NoDup_fst_range m)) as [H1 H2].
  destruct (m !! setCookieHeader) as [v|] eqn:Hm; cbn.
  - rewrite (H1 v); [done | by apply elem_of_range].
  - apply H2. intros v Hin. apply elem_of_range in Hin. by simplify_eq.
Qed.

Lemma joinedHeaders_lookup (m : http.Header) (k : string) :
  joinedHeaders m !! k =
    if decide (k = setCookieHeader) then None else (fun v => Join v ",") <$> m !! k.
Proof.
  unfold joinedHeaders. rewrite range_insertWhere_lookup, lookup_empty.
  unfold joinedValue. destruct (m !! k) as [v|]; cbn; by case_decide.
Qed.

(** What the gateway-v2 transcoder makes of a fresh envelope. *)
Lemma TranscodeFrom_v2_fresh w :
  TranscodeFrom_v2 newV2Response w =
    Ok (mkV2Response (statusCode w) (Some (joinedHeaders (headerMap w))) None
          (encodedBody w).1 (encodedBody w).2
          (default [] (headerMap w !! setCookieHeader))).
Proof.
  unfold TranscodeFrom_v2, encodedBody. cbn [v2_Cookies v2_MultiValueHeaders newV2Response].
  rewrite foldl_v2_place, range_cookieStep. unfold joinedHeaders.
  by destruct (String.eqb _ _).
Qed.

End TranscodeFacts.

(** ** Classification *)

Section ClassifyFacts.
Context `{GoEnv}.


(** A payload that does not decode is answered with the decoder's error
    before any rule is tried. *)
Lemma demux_undecodable (payload : RawMessage) (rw : lambdaHTTPResponseWriter) (err : error) :
  Unmarshal_ambiguous payload = inl err →
  demuxAmbiguousRequest payload rw = (rw, (None, Some err)).
Proof. intros Hdec. unfold demuxAmbiguousRequest. by rewrite Hdec. Qed.

End ClassifyFacts.


(** ** Orchestration *)

Section ServeFacts.
Context `{GoEnv}.

Lemma errorReply_Ok (err : error) :
  ∃ bs, errorReply err = Ok bs
        ∧ Marshal (AnyLCD (mkLCD http.StatusInternalServerError err false)) = inr bs.
Proof.
  destruct (Marshal_lcd (mkLCD http.StatusInternalServerError err false)) as [bs Hbs].
  exists bs. unfold errorReply, returnMarshal. by rewrite Hbs.
Qed.

Lemma lambdaHandler_stageFailure (handler : Handler) (req : RawMessage) (err : error) :
  stageFailure handler req err → lambdaHandler handler req = errorReply err.
Proof.
  intros [rw r err' Hd | rw r err' Hd Hc | rw r httpRequest w err' Hd Hc Hh Ht];
    unfold lambdaHandler; rewrite Hd; [done | by rewrite Hc |].
  by rewrite Hc, Hh, Ht.
Qed.

(** C7. When classification, canonicalization or transcoding returns an
    error, [lambdaHandler] returns, with a nil error, the serialization of
    the fallback envelope with status code 500 and the error's text as the
    body; the stages run once. *)
Theorem stage_failure_gives_fallback_500 (handler : Handler) (req : RawMessage) (err : error) :
  stageFailure handler req err →
  ∃ bs, lambdaHandler handler req = Ok bs
        ∧ Marshal (AnyLCD (mkLCD 500 err false)) = inr bs.
Proof.
  intros Hfail. rewrite (lambdaHandler_stageFailure _ _ _ Hfail). apply errorReply_Ok.
Qed.

End ServeFacts.

(** The payload without markers is answered by the fallback envelope. *)
Lemma stage_failure_gives_fallback_500_witness :
  @stageFailure Example.env (fun w _ => Some w) Example.payloadOther "unsupported request type"
  ∧ ∃ bs, @lambdaHandler Example.env (fun w _ => Some w) Example.payloadOther = Ok bs
          ∧ @Marshal Example.env (AnyLCD (mkLCD 500 "unsupported request type" false)) = inr bs.
Proof.
  assert (Hfail : @stageFailure Example.env (fun w _ => Some w) Example.payloadOther
                    "unsupported request type").
  { eapply (@classification_fails Example.env). reflexivity. }
  split; [exact Hfail|].
  exact (@stage_failure_gives_fallback_500 Example.env _ _ _ Hfail).
Defined.

(** ** Canonicalization *)

Section CanonizeFacts.
Context `{GoEnv}.

Lemma finishCanonize_Ok rawPath rawQuery method remoteAddr headers isBase64Encoded bodyField out :
  finishCanonize rawPath rawQuery method remoteAddr headers isBase64Encoded bodyField = Ok out →
  req_Header out = headers
  ∧ req_RemoteAddr out = remoteAddr
  ∧ req_Body out = (if isBase64Encoded then base64_NewDecoder nilReader
                    else strings_NewReader bodyField).
Proof.
  unfold finishCanonize, NewRequestWithContext.
  destruct (PathUnescape rawPath) as [e|path]; [done|].
  destruct (newRequestLine _ _) as [e|[[m u] host]]; [done|].
  intros [= <-]. done.
Qed.

(** The body reader of a canonical request. *)
Lemma Canonize_body (r : lambdaHTTPRequest) (out : Request) :
  Canonize r = Ok out →
  req_Body out = (if reqIsBase64Encoded r then base64_NewDecoder nilReader
                  else strings_NewReader (reqBody r)).
Proof. destruct r; intros Hc; apply finishCanonize_Ok in Hc; tauto. Qed.

(** With the binary flag unset the body reader yields the text of the body
    field. *)
Lemma Canonize_text_body (r : lambdaHTTPRequest) (out : Request) :
  Canonize r = Ok out → reqIsBase64Encoded r = false →
  ReadAll (req_Body out) = Ok (list_byte_of_string (reqBody r)).
Proof. intros Hc Hflag. rewrite (Canonize_body _ _ Hc), Hflag. done. Qed.

(** With the binary flag set, reading the body panics whatever the body
    field holds. *)
Lemma Canonize_binary_body (r : lambdaHTTPRequest) (out : Request) :
  Canonize r = Ok out → reqIsBase64Encoded r = true →
  ReadAll (req_Body out) = Panic nilDereference.
Proof. intros Hc Hflag. rewrite (Canonize_body _ _ Hc), Hflag. done. Qed.

(** The remote address of a canonical request. *)
Lemma Canonize_remoteAddr (r : lambdaHTTPRequest) (out : Request) :
  Canonize r = Ok out → req_RemoteAddr out = reqRemoteAddr r.
Proof. destruct r; intros Hc; apply finishCanonize_Ok in Hc; tauto. Qed.

Lemma setHeaders_lookup (headers : http.Header) (m : gmap string (list string)) (k : string) :
  setHeaders headers m !! k =
    match m !! k with
    | Some v => Some v
    | None => headers !! k
    end.
Proof.
  unfold setHeaders.
  change (foldl (insertWhere (fun _ v => Some v)) headers (range m) !! k
          = match m !! k with Some v => Some v | None => headers !! k end).
  rewrite range_insertWhere_lookup. by destruct (m !! k).
Qed.

(** The header map of a canonical gateway-v1 request: the multi-value
    entries, stored under their keys as written, over the single-value
    entries, stored under their canonical keys. *)
Lemma Canonize_v1_header (r : apiGatewayV1Request) (out : Request) (k : string) :
  Canonize_v1 r = Ok out →
  req_Header out !! k =
    match v1_ReqMultiValueHeaders r !! k with
    | Some v => Some v
    | None => addHeaders (v1_ReqHeaders r) !! k
    end.
Proof.
  intros Hc. apply finishCanonize_Ok in Hc as (-> & _ & _). apply setHeaders_lookup.
Qed.

(** [headers.Add] keeps what the map holds and appends. *)
Lemma Add_lookup (headers : http.Header) (k v c : string) :
  http.Add headers k v !! c =
    if decide (http.CanonicalHeaderKey k = c)
    then Some (default [] (headers !! c) ++ [v])
    else headers !! c.
Proof.
  unfold http.Add. case_decide as Hk.
  - subst c. by rewrite lookup_insert_eq.
  - by rewrite lookup_insert_ne.
Qed.

Lemma foldl_Add_keeps (l : list (string * string)) (headers : http.Header) (c v : string) vs :
  headers !! c = Some vs → v ∈ vs →
  ∃ vs', foldl (fun headers kv => http.Add headers kv.1 kv.2) headers l !! c = Some vs'
         ∧ v ∈ vs'.
Proof.
  revert headers vs. induction l as [|[k' v'] l IH]; intros headers vs Hc Hv; [by eauto|].
  cbn [foldl fst snd]. destruct (decide (http.CanonicalHeaderKey k' = c)) as [Hk|Hk].
  - apply (IH _ (vs ++ [v'])).
    + by rewrite Add_lookup, decide_True, Hc.
    + apply elem_of_app. by left.
  - apply (IH _ vs); [|done]. by rewrite Add_lookup, decide_False.
Qed.

Lemma foldl_Add_contains (l : list (string * string)) (headers : http.Header) (k v : string) :
  (k, v) ∈ l →
  ∃ vs, foldl (fun headers kv => http.Add headers kv.1 kv.2) headers l
          !! http.CanonicalHeaderKey k = Some vs
        ∧ v ∈ vs.
Proof.
  revert headers. induction l as [|[k' v'] l IH]; intros headers Hin.
  { by apply elem_of_nil in Hin. }
  apply elem_of_cons in Hin as [[= <- <-]|Hin]; [|by apply IH].
  cbn [foldl fst snd]. eapply foldl_Add_keeps.
  - rewrite Add_lookup, decide_True by done. done.
  - apply elem_of_app. right. by apply list_elem_of_singleton.
Qed.

(** Every single-value header is in the merged map under its canonical
    key. *)
Lemma addHeaders_contains (m : gmap string string) (k v : string) :
  m !! k = Some v →
  ∃ vs, addHeaders m !! http.CanonicalHeaderKey k = Some vs ∧ v ∈ vs.
Proof. intros Hm. apply foldl_Add_contains. by apply elem_of_range. Qed.

(** The general form of the divergence of C8: a key of both maps that is
    not in canonical form, and whose canonical form is not a multi-value key
    either, leaves the single value in the header map, where [Get] finds
    it, beside the multi-value entry. *)
Lemma Canonize_v1_single_value_survives (r : apiGatewayV1Request) (out : Request)
    (k v : string) (vs : list string) :
  Canonize_v1 r = Ok out →
  v1_ReqHeaders r !! k = Some v →
  v1_ReqMultiValueHeaders r !! k = Some vs →
  v1_ReqMultiValueHeaders r !! http.CanonicalHeaderKey k = None →
  req_Header out !! k = Some vs
  ∧ ∃ vs', req_Header out !! http.CanonicalHeaderKey k = Some vs' ∧ v ∈ vs'.
Proof.
  intros Hc Hsingle Hmulti Hcanon. split.
  - by rewrite (Canonize_v1_header r out k Hc), Hmulti.
  - rewrite (Canonize_v1_header r out _ Hc), Hcanon. by apply addHeaders_contains.
Qed.

(** The load-balancer canonicalizer never consults the single-value headers
    for the remote address. *)
Lemma sourceIP_without_multi_value_entry (r : albRequest) :
  alb_ReqMultiValueHeaders r !! "x-forwarded-for" = None → sourceIP r = "".
Proof. intros Hm. unfold sourceIP. by rewrite Hm. Qed.

(** With the entry in the multi-value map, the remote address is the text
    before the first comma of its first value. *)
Lemma sourceIP_with_multi_value_entry (r : albRequest) (xff0 : string) (rest : list string) :
  alb_ReqMultiValueHeaders r !! "x-forwarded-for" = Some (xff0 :: rest) →
  sourceIP r = beforeComma xff0.
Proof. intros Hm. unfold sourceIP. by rewrite Hm. Qed.

End CanonizeFacts.

(** ** Transcoding, continued *)

Section RoundTripFacts.
Context `{GoEnv}.

(** C6. The fallback envelope and every format's fresh envelope are
    emitted with the binary flag set exactly when the content-type header
    of the writer reads "application/octet-stream", the body field then
    being the base64 text of the accumulated body and otherwise its bytes
    as text. The gateway-v2 transcoder and the fallback always emit; the
    other two emit unless a header carries more than one value. *)
Theorem binary_flag_iff_octet_stream (w : lambdaHTTPResponseWriter) :
  binaryBodyRule w (lcd_Body (fallbackResponse w)) (lcd_IsBase64Encoded (fallbackResponse w))
  ∧ Forall (emitsByRule w) freshResponses
  ∧ (∃ e, TranscodeFrom (RespV2 newV2Response) w = Ok e).
Proof.
  pose proof (encodedBody_rule w) as Hrule. split; [|split].
  - unfold fallbackResponse. unfold encodedBody in Hrule.
    by destruct (String.eqb _ _).
  - unfold freshResponses, emitsByRule. repeat apply Forall_cons_2; [| | |by apply Forall_nil].
    + cbn [TranscodeFrom]. rewrite TranscodeFrom_alb_fresh. by case_decide.
    + cbn [TranscodeFrom]. by rewrite TranscodeFrom_v2_fresh.
    + cbn [TranscodeFrom]. rewrite TranscodeFrom_v1_fresh. by case_decide.
  - cbn [TranscodeFrom]. rewrite TranscodeFrom_v2_fresh. by eexists.
Qed.

Lemma carriedBytes_encodedBody w :
  carriedBytes (encodedBody w).1 (encodedBody w).2 = Some (body w).
Proof.
  unfold carriedBytes, encodedBody. destruct (String.eqb _ _); cbn [fst snd].
  - apply Base64Facts.DecodeString_EncodeToString.
  - by rewrite list_byte_of_string_of_list_byte.
Qed.

(** Transcoding into a fresh envelope keeps the status code and the body
    bytes of the writer. *)
Lemma TranscodeFrom_keeps_status_and_body (req : lambdaHTTPRequest) (w : lambdaHTTPResponseWriter) :
  ¬ multiValued (headerMap w) ∨ (∃ r, req = ReqV2 r) →
  ∃ resp, TranscodeFrom (newResp req) w = Ok resp
          ∧ respStatusCode resp = statusCode w
          ∧ carriedBytes (respBody resp) (respIsBase64Encoded resp) = Some (body w).
Proof.
  intros Hh. destruct req as [r|r|r]; cbn [newResp TranscodeFrom].
  - destruct Hh as [Hh|[r' [=]]]. rewrite TranscodeFrom_alb_fresh, decide_False by done.
    eexists; split; [done|]. split; [done | apply carriedBytes_encodedBody].
  - rewrite TranscodeFrom_v2_fresh.
    eexists; split; [done|]. split; [done | apply carriedBytes_encodedBody].
  - destruct Hh as [Hh|[r' [=]]]. rewrite TranscodeFrom_v1_fresh, decide_False by done.
    eexists; split; [done|]. split; [done | apply carriedBytes_encodedBody].
Qed.

Lemma not_multiValued_empty : ¬ multiValued ∅.
Proof. intros (k & v & Hk & _). by rewrite lookup_empty in Hk. Qed.

(** C3, amended. For each of the three formats, every status code [s]
    other than the sentinel 0 and every byte sequence [b]: when the request
    canonicalizes, running the handler that sets the status [s] and writes
    [b] and transcoding yields an envelope with status code [s] whose body
    field carries exactly [b] (after base64 decoding when the flag is set). *)
Theorem round_trip_keeps_status_and_body (req : lambdaHTTPRequest) (httpRequest : Request)
    (s : Z) (b : list byte) :
  s ≠ 0 →
  Canonize req = Ok httpRequest →
  ∃ resp, serve (fixedHandler s b) req = Ok resp
          ∧ respStatusCode resp = s
          ∧ carriedBytes (respBody resp) (respIsBase64Encoded resp) = Some b.
Proof.
  intros Hs Hc. unfold serve, fixedHandler. rewrite Hc.
  assert (Hw : (Write (WriteHeader newWriter s) (Some b)).1 = mkWriter None b s None).
  { rewrite Write_fst. unfold WriteHeader. cbn.
    by rewrite writeHeaderLine_finalized. }
  rewrite Hw.
  destruct (TranscodeFrom_keeps_status_and_body req (mkWriter None b s None))
    as (resp & Hresp & Hstatus & Hbody).
  { left. apply not_multiValued_empty. }
  exists resp. by rewrite Hresp.
Qed.

(** The same when the handler first leaves any headers [hs] in the header
    map, provided no header has several values or the format is gateway v2:
    a content type of "application/octet-stream" sends the body in base64. *)
Lemma round_trip_with_headers (req : lambdaHTTPRequest) (httpRequest : Request)
    (hs : http.Header) (s : Z) (b : list byte) :
  s ≠ 0 →
  Canonize req = Ok httpRequest →
  ¬ multiValued hs ∨ (∃ r, req = ReqV2 r) →
  ∃ resp, serve (headerHandler hs s b) req = Ok resp
          ∧ respStatusCode resp = s
          ∧ carriedBytes (respBody resp) (respIsBase64Encoded resp) = Some b.
Proof.
  intros Hs Hc Hhs. unfold serve, headerHandler. rewrite Hc.
  assert (Hw : (Write (WriteHeader (with_header (Some hs) (with_header (Some ∅) newWriter)) s)
                  (Some b)).1 = mkWriter (Some hs) b s None).
  { rewrite Write_fst. unfold WriteHeader. cbn.
    by rewrite writeHeaderLine_finalized. }
  cbn [Header_ header newWriter]. rewrite Hw.
  destruct (TranscodeFrom_keeps_status_and_body req (mkWriter (Some hs) b s None) Hhs)
    as (resp & Hresp & Hstatus & Hbody).
  exists resp. by rewrite Hresp.
Qed.

End RoundTripFacts.

(** ** The model run on the example instance *)

Section Runs.
Local Existing Instance Example.env.

Example run_v2 :
  lambdaHandler (fixedHandler 201 Example.pong) Example.payloadV2 = Ok Example.pong.
Proof. vm_compute. reflexivity. Qed.

(** The scenario of the malformed path: a reply with the decoding failure
    as the body of the fallback envelope. *)
Example run_bad_path :
  lambdaHandler (fixedHandler 201 Example.pong) Example.payloadBadPath
  = Ok (list_byte_of_string
          ("failed to unescape path /a%zz from request: invalid URL escape "
           +:+ Example.quoted "%zz")).
Proof. vm_compute. reflexivity. Qed.

Lemma round_trip_keeps_status_and_body_witness :
  201 ≠ 0
  ∧ (∃ httpRequest, Canonize (ReqV2 Example.v2Req) = Ok httpRequest)
  ∧ ∃ resp, serve (fixedHandler 201 Example.pong) (ReqV2 Example.v2Req) = Ok resp
            ∧ respStatusCode resp = 201
            ∧ carriedBytes (respBody resp) (respIsBase64Encoded resp) = Some Example.pong.
Proof.
  assert (Hc : ∃ httpRequest, Canonize (ReqV2 Example.v2Req) = Ok httpRequest).
  { eexists. vm_compute. reflexivity. }
  split; [discriminate|]. split; [exact Hc|].
  destruct Hc as [httpRequest Hc].
  exact (round_trip_keeps_status_and_body (ReqV2 Example.v2Req) httpRequest 201 Example.pong
           ltac:(discriminate) Hc).
Defined.

(** C3 as stated fails at the status code 0: [WriteHeader(0)] leaves the
    writer unfinalized, the write that follows sets 200. *)
Lemma round_trip_status_zero :
  match Canonize (ReqV2 Example.v2Req) with
  | Ok _ =>
      match serve (fixedHandler 0 Example.pong) (ReqV2 Example.v2Req) with
      | Ok resp => respStatusCode resp = 200 ∧ respStatusCode resp ≠ 0
      | _ => False
      end
  | _ => False
  end.
Proof. vm_compute. split; [reflexivity | discriminate]. Qed.

(** C2. With the binary flag set, each canonicalizer hands
    [base64.NewDecoder] the still-nil [body] variable instead of a reader
    over the body field: the request is built, and reading its body panics
    where the claim has it yield the decoding of the body field (here
    ["hello"]). *)
Theorem binary_body_reads_nil_reader :
  Forall (fun r =>
            reqIsBase64Encoded r = true
            ∧ Base64.DecodeString (reqBody r) = Some (list_byte_of_string "hello")
            ∧ match Canonize r with
              | Ok out => req_Body out = base64_NewDecoder nilReader
                          ∧ ReadAll (req_Body out) = Panic nilDereference
              | _ => False
              end)
    [ReqALB Example.albReqBinary; ReqV2 Example.v2ReqBinary; ReqV1 Example.v1ReqBinary].
Proof. repeat constructor; vm_compute; reflexivity. Qed.

(** C5. A header with two values makes the gateway-v1 and load-balancer
    transcoders write to the nil multi-value map of the fresh envelope:
    they panic where the claim has them complete with the key in the
    multi-value map. *)
Theorem multi_value_header_panics :
  multiValued (headerMap Example.writerTwoValues)
  ∧ TranscodeFrom (RespV1 newV1Response) Example.writerTwoValues = Panic nilMapAssignment
  ∧ TranscodeFrom (RespALB newALBResponse) Example.writerTwoValues = Panic nilMapAssignment.
Proof.
  split; [|split; vm_compute; reflexivity].
  exists "Vary", ["Accept"; "Origin"]. split; [vm_compute; reflexivity | cbn; lia].
Qed.

(** C8. A key written in lower case in both header maps of a gateway-v1
    envelope: the single value stays under the canonical key, the
    multi-value entry sits beside it under the key as written, and a
    lookup of the header returns the single value. *)
Theorem multi_value_header_does_not_replace :
  v1_ReqHeaders Example.v1Req !! "accept" = Some "text/html"
  ∧ v1_ReqMultiValueHeaders Example.v1Req !! "accept" = Some ["text/html"; "application/json"]
  ∧ match Canonize (ReqV1 Example.v1Req) with
    | Ok out =>
        req_Header out
          = {[ "Accept" := ["text/html"]; "accept" := ["text/html"; "application/json"] ]}
        ∧ http.Get (req_Header out) "accept" = "text/html"
    | _ => False
    end.
Proof. repeat split; vm_compute; reflexivity. Qed.

(** C9. A load-balancer envelope that carries the forwarded-for header in
    its single-value headers map: the canonical request has the header and
    an empty remote address. *)
Theorem forwarded_for_in_headers_is_ignored :
  alb_ReqHeaders Example.albReq !! "x-forwarded-for" = Some "198.51.100.4, 10.0.0.9"
  ∧ match Canonize (ReqALB Example.albReq) with
    | Ok out =>
        http.Get (req_Header out) "x-forwarded-for" = "198.51.100.4, 10.0.0.9"
        ∧ req_RemoteAddr out = ""
    | _ => False
    end.
Proof. repeat split; vm_compute; reflexivity. Qed.

(** C10. Two [Set-Cookie] values: the gateway-v2 transcoder moves them to
    the cookie list and joins every other header into the single-value map;
    the gateway-v1 and load-balancer transcoders panic on them (the nil
    multi-value map again) where the claim has them placed as headers. *)
Theorem set_cookie_values_outside_v2_panic :
  headerMap Example.writerTwoCookies !! setCookieHeader = Some ["a=1"; "b=2"]
  ∧ TranscodeFrom (RespV2 newV2Response) Example.writerTwoCookies
    = Ok (RespV2 (mkV2Response 200 (Some {[ "X-Id" := "7" ]}) None "" false ["a=1"; "b=2"]))
  ∧ TranscodeFrom (RespV1 newV1Response) Example.writerTwoCookies = Panic nilMapAssignment
  ∧ TranscodeFrom (RespALB newALBResponse) Example.writerTwoCookies = Panic nilMapAssignment.
Proof. repeat split; vm_compute; reflexivity. Qed.

End Runs.

(** * Further properties of the code *)

(** ** The response writer under any sequence of calls *)

Section WriterInvariants.
Context `{GoEnv}.

Lemma canonical_contentTypeHeader : http.CanonicalHeaderKey contentTypeHeader = contentTypeHeader.
Proof. reflexivity. Qed.

Lemma headerMap_Header_ l : headerMap (Header_ l).2 = headerMap l ∧ (Header_ l).1 = headerMap l.
Proof. unfold Header_, headerMap. by destruct l as [[h|] b s p]. Qed.

(** The header map, as read, after [writeHeaderLine]. *)
Lemma writeHeaderLine_headerMap l data :
  headerMap (writeHeaderLine l data) =
    if decide (statusCode l ≠ 0) then headerMap l
    else if negb (bool_decide (is_Some (headerMap l !! contentTypeHeader)))
            && String.eqb (http.Get (headerMap l) transferEncodingHeader) ""
         then match data with
              | Some d => <[contentTypeHeader := [DetectContentType d]]> (headerMap l)
              | None => headerMap l
              end
         else headerMap l.
Proof.
  unfold writeHeaderLine. case_decide; [done|].
  destruct l as [[h|] b s p]; cbn;
    destruct (bool_decide _); cbn; try done;
    destruct (String.eqb _ _); cbn; try done; by destruct data.
Qed.

Lemma perform_headerMap l c :
  headerMap (perform l c) =
    match c with
    | CallWrite data => headerMap (writeHeaderLine l data)
    | _ => headerMap l
    end.
Proof.
  destruct c as [s|d|]; cbn [perform].
  - unfold WriteHeader. by case_decide.
  - by rewrite Write_fst.
  - unfold Flush, WriteHeader. by repeat case_decide.
Qed.

Lemma perform_other_header l c k :
  k ≠ contentTypeHeader → headerMap (perform l c) !! k = headerMap l !! k.
Proof.
  intros Hk. rewrite perform_headerMap. destruct c as [s|d|]; try done.
  rewrite writeHeaderLine_headerMap. repeat case_match; try done.
  by rewrite lookup_insert_ne.
Qed.

(** X1. No sequence of [WriteHeader], [Write] and [Flush] calls touches a
    header other than [Content-Type]: what the handler put in the map is
    what the transcoder reads. *)
Theorem calls_touch_only_content_type (l : lambdaHTTPResponseWriter) (cs : list call) (k : string) :
  k ≠ contentTypeHeader → headerMap (performAll l cs) !! k = headerMap l !! k.
Proof.
  intros Hk. revert l. induction cs as [|c cs IH]; intros l; [done|].
  unfold performAll in *. cbn [foldl]. by rewrite IH, perform_other_header.
Qed.

Lemma perform_content_type_kept l c vs :
  headerMap l !! contentTypeHeader = Some vs →
  headerMap (perform l c) !! contentTypeHeader = Some vs.
Proof.
  intros Hct. rewrite perform_headerMap. destruct c as [s|d|]; try done.
  rewrite writeHeaderLine_headerMap. case_decide; [done|].
  rewrite Hct. rewrite bool_decide_eq_true_2 by by eexists. done.
Qed.

(** X2. A [Content-Type] entry the handler has set, whatever its values
    (an empty list included), is never replaced by sniffing. *)
Theorem content_type_set_by_handler_is_kept (l : lambdaHTTPResponseWriter) (cs : list call)
    (vs : list string) :
  headerMap l !! contentTypeHeader = Some vs →
  headerMap (performAll l cs) !! contentTypeHeader = Some vs.
Proof.
  revert l. induction cs as [|c cs IH]; intros l Hct; [done|].
  unfold performAll in *. cbn [foldl]. by apply IH, perform_content_type_kept.
Qed.

Lemma perform_body l c : body (perform l c) = body l ++ written [c].
Proof.
  destruct c as [s|d|]; cbn [perform].
  - unfold WriteHeader, written. cbn. case_decide; by rewrite app_nil_r.
  - rewrite Write_fst. unfold written; cbn. by rewrite app_nil_r.
  - unfold Flush, WriteHeader, written. cbn. repeat case_decide; by rewrite app_nil_r.
Qed.

(** X3. The body only grows: after any sequence of calls on any writer it
    is the former body followed by the bytes handed to [Write], in order;
    [WriteHeader] and [Flush] add nothing, a [Write] of nil or of an empty
    slice adds nothing. *)
Theorem body_is_append_only (l : lambdaHTTPResponseWriter) (cs : list call) :
  body (performAll l cs) = body l ++ written cs.
Proof.
  revert l. induction cs as [|c cs IH]; intros l.
  - unfold written. cbn. by rewrite app_nil_r.
  - unfold performAll in *. cbn [foldl].
    by rewrite IH, perform_body, (written_cons c cs), app_assoc.
Qed.

Lemma perform_statusCode l c :
  statusCode (perform l c) =
    if decide (statusCode l ≠ 0) then statusCode l else firstStatus [c].
Proof.
  destruct c as [s|d|]; cbn [perform firstStatus].
  - unfold WriteHeader. case_decide as Hl; [done|]. cbn.
    by case_decide.
  - rewrite Write_fst. cbn. apply writeHeaderLine_statusCode.
  - unfold Flush, WriteHeader. by repeat case_decide.
Qed.

(** X4. The status code after any sequence of calls: the one the writer
    already had when it was finalized, and otherwise the one of the first
    call that finalizes (200 for a [Write] or [Flush], the code of a
    [WriteHeader] unless it is 0); later calls never change it. *)
Theorem status_is_set_by_first_finalizing_call (l : lambdaHTTPResponseWriter) (cs : list call) :
  statusCode (performAll l cs) =
    if decide (statusCode l ≠ 0) then statusCode l else firstStatus cs.
Proof.
  revert l. induction cs as [|c cs IH]; intros l.
  - cbn. by case_decide.
  - unfold performAll in *. cbn [foldl]. rewrite IH, perform_statusCode.
    destruct (decide (statusCode l ≠ 0)) as [Hl|Hl].
    + by rewrite decide_True.
    + destruct c as [s|d|]; cbn [firstStatus].
      * destruct (decide (s = 0)) as [->|Hs]; [by rewrite decide_False by (intros ?; done)|].
        by rewrite decide_True.
      * by rewrite decide_True.
      * by rewrite decide_True.
Qed.

(** X5. The content type of a first [Write] on a writer that is not
    finalized and has no [Content-Type] entry: sniffed from the bytes of
    that write when the slice is not nil and the first [Transfer-Encoding]
    value is empty or missing, and left unset otherwise. *)
Theorem first_write_sniffs_content_type (l : lambdaHTTPResponseWriter) (data : option (list byte)) :
  statusCode l = 0 →
  headerMap l !! contentTypeHeader = None →
  headerMap (Write l data).1 !! contentTypeHeader =
    if String.eqb (http.Get (headerMap l) transferEncodingHeader) ""
    then (fun d => [DetectContentType d]) <$> data
    else None.
Proof.
  intros Hs Hct. rewrite Write_fst. change (headerMap (with_body ?b ?w)) with (headerMap w).
  rewrite writeHeaderLine_headerMap, decide_False by (intros Hne; by apply Hne).
  rewrite Hct, bool_decide_eq_false_2 by (by intros [? ?]). cbn.
  destruct (String.eqb _ _); [|done].
  destruct data as [d|]; cbn; [by rewrite lookup_insert_eq | done].
Qed.

(** X6. After an explicit non-zero status or a flush, no later call sniffs:
    a handler that calls [WriteHeader] (or [Flush]) before its first
    [Write] gets no [Content-Type] unless it sets one itself. *)
Theorem explicit_status_disables_sniffing (l : lambdaHTTPResponseWriter) (c : call)
    (cs : list call) :
  statusCode l = 0 →
  (c = CallFlush ∨ ∃ s, c = CallWriteHeader s ∧ s ≠ 0) →
  headerMap (performAll l (c :: cs)) = headerMap l.
Proof.
  intros Hl Hc. unfold performAll. cbn [foldl]. fold (performAll (perform l c) cs).
  rewrite performAll_finalized.
  - change (headerMap (with_body ?b ?w)) with (headerMap w).
    rewrite perform_headerMap. by destruct Hc as [->|(s & -> & _)].
  - apply perform_finalizes. intros s ->. destruct Hc as [[=]|(s' & [= <-] & Hs)]. done.
Qed.

End WriterInvariants.

(** ** The transcoders on any receiver *)

Section TranscodeMore.
Context `{GoEnv}.

Lemma range_cookieStep_from (m : http.Header) (cookies : list string) :
  foldl cookieStep cookies (range m) = cookies ++ default [] (m !! setCookieHeader).
Proof.
  destruct (foldl_cookieStep (range m) cookies (NoDup_fst_range m)) as [H1 H2].
  destruct (m !! setCookieHeader) as [v|] eqn:Hm; cbn.
  - apply H1. by apply elem_of_range.
  - rewrite app_nil_r. apply H2. intros v Hin. apply elem_of_range in Hin. by simplify_eq.
Qed.

(** X7. The gateway-v2 transcoder returns an envelope for every receiver
    and writer. The status code is the writer's; the headers map is made
    anew and holds every key but [Set-Cookie] with its values joined by
    commas; the [Set-Cookie] values are appended to the cookies the receiver
    already holds; the multi-value map is left as it was. The binary flag is
    set for "application/octet-stream" and otherwise keeps the value the
    receiver had. *)
Theorem v2_transcode_on_any_receiver (r : apiGatewayV2Response) (w : lambdaHTTPResponseWriter) :
  ∃ e hs, TranscodeFrom_v2 r w = Ok e
    ∧ v2_StatusCode e = statusCode w
    ∧ v2_Headers e = Some hs
    ∧ (∀ k, hs !! k = if decide (k = setCookieHeader) then None
                      else (fun v => Join v ",") <$> headerMap w !! k)
    ∧ v2_Cookies e = v2_Cookies r ++ default [] (headerMap w !! setCookieHeader)
    ∧ v2_MultiValueHeaders e = v2_MultiValueHeaders r
    ∧ v2_Body e = (encodedBody w).1
    ∧ v2_IsBase64Encoded e = ((encodedBody w).2 || v2_IsBase64Encoded r).
Proof.
  unfold TranscodeFrom_v2, encodedBody.
  rewrite foldl_v2_place, range_cookieStep_from.
  pose proof (joinedHeaders_lookup (headerMap w)) as Hlookup. unfold joinedHeaders in Hlookup.
  destruct (String.eqb _ _).
  - eexists; eexists. split; [reflexivity|]. cbn.
    split; [done|]. split; [done|]. split; [exact Hlookup|]. done.
  - eexists; eexists. split; [reflexivity|]. cbn.
    split; [done|]. split; [done|]. split; [exact Hlookup|]. done.
Qed.

Lemma place_made_multi hs m (kv : string * list string) :
  place (Ok (hs, Some m)) kv =
    Ok (insertWhere singleValue hs kv, Some (insertWhere severalValues m kv)).
Proof.
  destruct kv as [k v]. unfold place, insertWhere, singleValue, severalValues; cbn.
  case_decide as Hlen; [|by destruct v as [|v0 [|v1 v]]].
  destruct v as [|v0 [|v1 v]]; cbn in Hlen; try lia; done.
Qed.

Lemma foldl_place_made_multi (l : list (string * list string)) hs m :
  foldl place (Ok (hs, Some m)) l =
    Ok (foldl (insertWhere singleValue) hs l, Some (foldl (insertWhere severalValues) m l)).
Proof.
  revert hs m. induction l as [|kv l IH]; intros hs m; [done|].
  cbn [foldl]. by rewrite place_made_multi, IH.
Qed.

Lemma singleValue_severalValues_exclusive k v :
  ¬ (is_Some (singleValue k v) ∧ is_Some (severalValues k v)).
Proof.
  unfold singleValue, severalValues. intros [[x Hx] [y Hy]].
  destruct v as [|v0 [|v1 v]]; done.
Qed.

(** X8. On a receiver whose multi-value map has been made, the gateway-v1
    transcoder returns an envelope for every writer: a key with one value
    is in the single-value map, a key with several values is in the
    multi-value map, a key with no value is in neither; the multi-value map
    keeps the other entries it had. With an empty map to start from no key
    is in both maps. *)
Theorem v1_transcode_with_made_multi_map (r : apiGatewayV1Response)
    (w : lambdaHTTPResponseWriter) (m0 : gmap string (list string)) :
  v1_MultiValueHeaders r = Some m0 →
  ∃ e hs mv, TranscodeFrom_v1 r w = Ok e
    ∧ v1_StatusCode e = statusCode w
    ∧ v1_Headers e = Some hs ∧ v1_MultiValueHeaders e = Some mv
    ∧ (∀ k, hs !! k = headerMap w !! k ≫= singleValue k)
    ∧ (∀ k, mv !! k = match headerMap w !! k ≫= severalValues k with
                      | Some v => Some v
                      | None => m0 !! k
                      end)
    ∧ (m0 = ∅ → ∀ k, ¬ (is_Some (hs !! k) ∧ is_Some (mv !! k))).
Proof.
  intros Hm0. unfold TranscodeFrom_v1. rewrite Hm0, foldl_place_made_multi.
  assert (Hhs : ∀ k, foldl (insertWhere singleValue) ∅ (range (headerMap w)) !! k
                     = headerMap w !! k ≫= singleValue k).
  { intros k. apply singleHeaders_lookup. }
  assert (Hmv : ∀ k, foldl (insertWhere severalValues) m0 (range (headerMap w)) !! k
                     = match headerMap w !! k ≫= severalValues k with
                       | Some v => Some v
                       | None => m0 !! k
                       end).
  { intros k. apply range_insertWhere_lookup. }
  destruct (String.eqb _ _); eexists _, _, _; (split; [reflexivity|]); cbn;
    (split; [done|]); (split; [done|]); (split; [done|]);
    (split; [exact Hhs|]); (split; [exact Hmv|]);
    intros -> k; rewrite Hhs, Hmv, lookup_empty;
    destruct (headerMap w !! k) as [v|]; cbn;
    try (intros [_ [? ?]]; done);
    pose proof (singleValue_severalValues_exclusive k v) as Hex;
    destruct (severalValues k v); naive_solver.
Qed.

Lemma foldl_place_not_Err (l : list (string * list string)) acc e :
  (∀ e', acc ≠ Err e') → foldl place acc l ≠ Err e.
Proof.
  revert acc. induction l as [|[k v] l IH]; intros acc Hacc; [apply Hacc|].
  cbn [foldl]. apply IH. intros e'.
  destruct acc as [[hs [m|]]|e0|p]; cbn.
  - case_decide; [done|]. by destruct v as [|v0 [|v1 v]].
  - case_decide; [done|]. by destruct v as [|v0 [|v1 v]].
  - by destruct (Hacc e0).
  - done.
Qed.

(** X9. No transcoder of a format ever returns an error, whatever the
    receiver and the writer: the only failures are the panic on the nil
    multi-value map and, in [ambiguousLambdaResponse.TranscodeFrom], an
    error of [json.Marshal], which is the only error that method returns. *)
Theorem transcode_errors_come_from_marshal (w : lambdaHTTPResponseWriter) :
  (∀ r e, TranscodeFrom r w ≠ Err e)
  ∧ (∀ e, TranscodeFrom_ambiguous w = Err e →
          ∃ out me, transcoded w = Ok out ∧ Marshal out = inl me
                    ∧ e = "failed to marshal response to JSON: " +:+ me).
Proof.
  assert (Hno : ∀ r e, TranscodeFrom r w ≠ Err e).
  { intros [r|r|r] e; cbn [TranscodeFrom].
    - unfold TranscodeFrom_alb.
      pose proof (foldl_place_not_Err (range (headerMap w))
                    (Ok (∅, alb_MultiValueHeaders r))) as Hp.
      destruct (foldl place _ _) as [[hs mv]|e0|p]; [by destruct (String.eqb _ _) | | done].
      by destruct (Hp e0).
    - unfold TranscodeFrom_v2. destruct (foldl v2_place _ _) as [hs cookies].
      by destruct (String.eqb _ _).
    - unfold TranscodeFrom_v1.
      pose proof (foldl_place_not_Err (range (headerMap w))
                    (Ok (∅, v1_MultiValueHeaders r))) as Hp.
      destruct (foldl place _ _) as [[hs mv]|e0|p]; [by destruct (String.eqb _ _) | | done].
      by destruct (Hp e0). }
  split; [exact Hno|].
  intros e. unfold TranscodeFrom_ambiguous.
  destruct (transcoded w) as [out|e0|p] eqn:Ht; [| |done].
  - destruct (Marshal out) as [me|bs] eqn:Hm; [|done].
    intros [= <-]. by exists out, me.
  - exfalso. unfold transcoded in Ht.
    destruct (preparedResponse w) as [prepared|]; [|done].
    pose proof (Hno prepared) as Hp.
    destruct (TranscodeFrom prepared w) as [r'|e1|p]; try done. by destruct (Hp e1).
Qed.


End TranscodeMore.

(** ** Canonicalization, continued *)

Section FoldMore.
Context {V W : Type} (f : option W -> V -> option W).

Lemma foldl_upsert_lookup (l : list (string * V)) (acc : gmap string W) (k : string) :
  NoDup l.*1 →
  (∀ v, (k, v) ∈ l →
        foldl (upsert f) acc l !! k =
          match f (acc !! k) v with Some w => Some w | None => acc !! k end)
  ∧ ((∀ v, (k, v) ∉ l) → foldl (upsert f) acc l !! k = acc !! k).
Proof.
  revert acc. induction l as [|[k' v'] l IH]; intros acc Hnd.
  { split; [intros v Hin; by apply elem_of_nil in Hin | done]. }
  apply NoDup_fst_cons_inv in Hnd as [Hfresh Hnd].
  cbn [foldl]. destruct (IH (upsert f acc (k', v')) Hnd) as [IH1 IH2]. split.
  - intros v Hin. apply elem_of_cons in Hin as [Heq|Hin].
    + injection Heq as -> ->. rewrite IH2 by (intros v'' Hin; by apply Hfresh in Hin).
      unfold upsert; cbn. destruct (f (acc !! k') v') as [w|]; [apply lookup_insert_eq | done].
    + assert (k' ≠ k) as Hne by (intros ->; by apply Hfresh in Hin).
      rewrite (IH1 v Hin).
      assert (Hsame : upsert f acc (k', v') !! k = acc !! k).
      { unfold upsert; cbn.
        destruct (f (acc !! k') v') as [w|]; [by rewrite lookup_insert_ne | done]. }
      by rewrite Hsame.
  - intros Hnone. rewrite IH2.
    + assert (k' ≠ k) as Hne by (intros ->; apply (Hnone v'), elem_of_cons; by left).
      unfold upsert; cbn. destruct (f (acc !! k') v') as [w|]; [by rewrite lookup_insert_ne | done].
    + intros v Hin. apply (Hnone v), elem_of_cons. by right.
Qed.

Lemma range_upsert_lookup `{GoEnv} (m : gmap string V) (acc : gmap string W) (k : string) :
  foldl (upsert f) acc (range m) !! k =
    match m !! k ≫= f (acc !! k) with
    | Some w => Some w
    | None => acc !! k
    end.
Proof.
  destruct (foldl_upsert_lookup (range m) acc k (NoDup_fst_range m)) as [H1 H2].
  destruct (m !! k) as [v|] eqn:Hm; cbn.
  - apply H1. by apply elem_of_range.
  - apply H2. intros v Hin. apply elem_of_range in Hin. by simplify_eq.
Qed.

End FoldMore.

Section CanonizeMore.
Context `{GoEnv}.

Lemma finishCanonize_inv rawPath rawQuery method remoteAddr headers isBase64Encoded bodyField out :
  finishCanonize rawPath rawQuery method remoteAddr headers isBase64Encoded bodyField = Ok out →
  ∃ path, PathUnescape rawPath = inr path
    ∧ req_RequestURI out
      = URL_RequestURI (mkURL (http.Get headers hostHeader) path rawQuery)
    ∧ ∃ host, newRequestLine method
                (URL_String (mkURL (http.Get headers hostHeader) path rawQuery))
              = inr (req_Method out, req_URL out, host)
              ∧ req_Host out = host.
Proof.
  unfold finishCanonize, NewRequestWithContext.
  destruct (PathUnescape rawPath) as [e|path]; [done|].
  destruct (newRequestLine _ _) as [e|[[m u] host]] eqn:Hline; [done|].
  intros [= <-]. exists path. cbn. split; [done|]. split; [done|]. by exists host.
Qed.

Lemma finishCanonize_outcome rawPath rawQuery method remoteAddr headers isBase64Encoded bodyField :
  match finishCanonize rawPath rawQuery method remoteAddr headers isBase64Encoded bodyField with
  | Ok _ => ∃ path, PathUnescape rawPath = inr path
  | Err e =>
      (∃ pe, PathUnescape rawPath = inl pe
             ∧ e = "failed to unescape path " +:+ rawPath +:+ " from request: " +:+ pe)
      ∨ (∃ path ne, PathUnescape rawPath = inr path
                    ∧ e = "failed to canonize incoming http request: " +:+ ne)
  | Panic _ => False
  end.
Proof.
  unfold finishCanonize, NewRequestWithContext.
  destruct (PathUnescape rawPath) as [pe|path]; [left; by exists pe|].
  destruct (newRequestLine _ _) as [ne|[[m u] host]]; [right; by exists path, ne|].
  by exists path.
Qed.


Lemma addParams_lookup (m : gmap string string) (k : string) :
  addParams ∅ m !! k = (fun v => [v]) <$> m !! k.
Proof.
  unfold addParams.
  change (foldl (upsert appendOne) ∅ (range m) !! k = (fun v => [v]) <$> m !! k).
  rewrite range_upsert_lookup, lookup_empty. by destruct (m !! k).
Qed.

Lemma foldl_Values_Add (params : Values) (k : string) (vs : list string) :
  foldl (fun params vv => Values_Add params k vv) params vs
  = upsert appendAll params (k, vs).
Proof.
  revert params. induction vs as [|v vs IH]; intros params; [done|].
  cbn [foldl]. rewrite IH. unfold upsert, appendAll, Values_Add; cbn.
  destruct vs as [|v' vs]; [done|].
  rewrite lookup_insert_eq, insert_insert_eq. cbn. by rewrite <- app_assoc.
Qed.

Lemma addMultiParams_lookup (params : Values) (m : gmap string (list string)) (k : string) :
  addMultiParams params m !! k =
    match m !! k ≫= appendAll (params !! k) with
    | Some vs => Some vs
    | None => params !! k
    end.
Proof.
  unfold addMultiParams.
  assert (Hstep : ∀ l acc,
    foldl (fun params kv => foldl (fun params vv => Values_Add params kv.1 vv) params kv.2) acc l
    = foldl (upsert appendAll) acc l).
  { induction l as [|[k' vs] l IH]; intros acc; [done|].
    cbn [foldl fst snd]. by rewrite foldl_Values_Add, IH. }
  rewrite Hstep. apply range_upsert_lookup.
Qed.

(** X12. The query of a canonical gateway-v1 request encodes, for each
    parameter, its single value followed by its multi-values: a parameter
    the envelope lists in both maps is sent to the handler with its value
    repeated; an empty multi-value list adds nothing. *)
Theorem v1_query_repeats_parameters_of_both_maps (r : apiGatewayV1Request) (out : Request) :
  Canonize_v1 r = Ok out →
  (∃ path, PathUnescape (v1_Path r) = inr path
           ∧ req_RequestURI out
             = URL_RequestURI (mkURL (http.Get (req_Header out) hostHeader) path
                                 (Values_Encode (v1Params r))))
  ∧ ∀ k, v1Params r !! k =
      match v1_QueryStringParameters r !! k, v1_MultiValueQueryStringParameters r !! k with
      | Some v, Some (v' :: vs) => Some (v :: v' :: vs)
      | Some v, _ => Some [v]
      | None, Some (v' :: vs) => Some (v' :: vs)
      | None, _ => None
      end.
Proof.
  intros Hc. split.
  - pose proof (finishCanonize_Ok _ _ _ _ _ _ _ _ Hc) as (Hh & _ & _).
    apply finishCanonize_inv in Hc as (path & Hp & Huri & _).
    exists path. split; [done|]. by rewrite Hh.
  - intros k. unfold v1Params. rewrite addMultiParams_lookup, addParams_lookup.
    destruct (v1_QueryStringParameters r !! k) as [v|];
      destruct (v1_MultiValueQueryStringParameters r !! k) as [[|v' vs]|]; done.
Qed.


Lemma foldl_Add_origin (l : list (string * string)) (headers : http.Header) (c v : string) vs :
  foldl (fun headers kv => http.Add headers kv.1 kv.2) headers l !! c = Some vs → v ∈ vs →
  (∃ vs0, headers !! c = Some vs0 ∧ v ∈ vs0)
  ∨ ∃ k, (k, v) ∈ l ∧ http.CanonicalHeaderKey k = c.
Proof.
  revert headers. induction l as [|[k' v'] l IH]; intros headers Hc Hv; [left; by eauto|].
  cbn [foldl fst snd] in Hc. destruct (IH _ Hc Hv) as [(vs0 & Hvs0 & Hin)|(k & Hin & Hk)].
  - rewrite Add_lookup in Hvs0. case_decide as Hk'.
    + injection Hvs0 as <-. apply elem_of_app in Hin as [Hin|Hin].
      * left. destruct (headers !! c) as [vs1|]; [by eauto | by apply elem_of_nil in Hin].
      * apply list_elem_of_singleton in Hin as ->. right. exists k'. split; [|done].
        apply elem_of_cons. by left.
    + left. by eauto.
  - right. exists k. split; [|done]. apply elem_of_cons. by right.
Qed.

(** X14. Merging the single-value headers: a value is listed under a key
    of the canonical header map exactly when the envelope holds it under a
    key with that canonical form. Keys that differ only in case are merged
    under one key; no value is lost and none is invented. *)
Theorem single_headers_merge_under_canonical_keys (m : gmap string string) (c v : string) :
  (∃ vs, addHeaders m !! c = Some vs ∧ v ∈ vs)
  ↔ ∃ k, http.CanonicalHeaderKey k = c ∧ m !! k = Some v.
Proof.
  split.
  - intros (vs & Hc & Hv). unfold addHeaders in Hc.
    destruct (foldl_Add_origin _ _ _ _ _ Hc Hv) as [(vs0 & H0 & _)|(k & Hin & Hk)].
    + by rewrite lookup_empty in H0.
    + exists k. split; [done|]. by apply elem_of_range.
  - intros (k & <- & Hm). by apply addHeaders_contains.
Qed.

(** X15. For a key in canonical form, the multi-value entry of a gateway-v1
    envelope is what the handler reads: [Get] returns its first value,
    whatever the single-value map holds under any spelling of the key. *)
Theorem v1_multi_value_wins_for_canonical_keys (r : apiGatewayV1Request) (out : Request)
    (k v : string) (vs : list string) :
  Canonize_v1 r = Ok out →
  http.CanonicalHeaderKey k = k →
  v1_ReqMultiValueHeaders r !! k = Some (v :: vs) →
  req_Header out !! k = Some (v :: vs) ∧ http.Get (req_Header out) k = v.
Proof.
  intros Hc Hk Hm.
  assert (Hl : req_Header out !! k = Some (v :: vs)).
  { by rewrite (Canonize_v1_header r out k Hc), Hm. }
  split; [done|]. unfold http.Get. by rewrite Hk, Hl.
Qed.

Lemma beforeComma_split (s : string) :
  commaFree (beforeComma s)
  ∧ ∃ tail, s = beforeComma s +:+ tail
            ∧ (tail = "" ∨ ∃ t, tail = String ","%char t).
Proof.
  unfold commaFree. induction s as [|c s [IHfree (tail & IHs & IHtail)]]; cbn.
  - split; [apply not_elem_of_nil|]. exists "". split; [done | by left].
  - destruct (Ascii.eqb_spec c ","%char) as [->|Hc]; cbn.
    + split; [apply not_elem_of_nil|]. exists (String ","%char s). split; [done|].
      right. by exists s.
    + split.
      * intros Hin. apply elem_of_cons in Hin as [Heq|Hin]; [by symmetry in Heq | done].
      * exists tail. split; [|done].
        change (String c s = String c (beforeComma s +:+ tail)). by rewrite <- IHs.
Qed.

(** X16. The remote address of a load-balancer request is the first value
    of the multi-value entry "x-forwarded-for" cut before its first comma:
    it holds no comma, is not trimmed, and is that whole value when the
    value has no comma. *)
Theorem alb_remote_address_is_text_before_comma (r : albRequest) (out : Request)
    (xff0 : string) (rest : list string) :
  Canonize_alb r = Ok out →
  alb_ReqMultiValueHeaders r !! "x-forwarded-for" = Some (xff0 :: rest) →
  commaFree (req_RemoteAddr out)
  ∧ ∃ tail, xff0 = req_RemoteAddr out +:+ tail
            ∧ (tail = "" ∨ ∃ t, tail = String ","%char t).
Proof.
  intros Hc Hm. apply finishCanonize_Ok in Hc as (_ & -> & _).
  rewrite (sourceIP_with_multi_value_entry r xff0 rest Hm). apply beforeComma_split.
Qed.

End CanonizeMore.

(** ** Classification and orchestration, continued *)

Section ServeMore.
Context `{GoEnv}.

Lemma demux_cases (payload : RawMessage) (rw : lambdaHTTPResponseWriter) :
  (∃ err, demuxAmbiguousRequest payload rw = (rw, (None, Some err)))
  ∨ ∃ req err,
      demuxAmbiguousRequest payload rw
      = (with_preparedResponse (Some (newResp req)) rw, (Some req, err)).
Proof.
  unfold demuxAmbiguousRequest.
  destruct (Unmarshal_ambiguous payload) as [err|a]; [left; by eauto|].
  destruct (negb _).
  { destruct (Unmarshal_alb payload) as [r e]. right. by exists (ReqALB r), e. }
  destruct (String.eqb _ _).
  { destruct (Unmarshal_v2 payload) as [r e]. right. by exists (ReqV2 r), e. }
  destruct (negb _).
  { destruct (Unmarshal_v1 payload) as [r e]. right. by exists (ReqV1 r), e. }
  left. by eauto.
Qed.

(** X17. Classification returns a request exactly when it prepares a
    response, both of the same format and the response fresh; without a
    request it returns an error and leaves the writer as it was. It never
    touches the header map, the body or the status code of the writer. When
    the typed decoding fails the request and the prepared response are
    still handed back, with the error. *)
Theorem demux_request_and_response_agree (payload : RawMessage) (rw : lambdaHTTPResponseWriter) :
  let result := demuxAmbiguousRequest payload rw in
  header result.1 = header rw ∧ body result.1 = body rw
  ∧ statusCode result.1 = statusCode rw
  ∧ match result.2.1 with
    | Some req =>
        preparedResponse result.1 = Some (newResp req)
        ∧ responseFormat (newResp req) = requestFormat req
    | None => result.1 = rw ∧ is_Some result.2.2
    end.
Proof.
  cbn zeta. destruct (demux_cases payload rw) as [(err & ->)|(req & err & ->)]; cbn.
  - repeat split; by eauto.
  - repeat split; by destruct req.
Qed.

Lemma foldl_place_Panic_inv (l : list (string * list string)) acc p :
  foldl place acc l = Panic p → acc = Panic p ∨ p = nilMapAssignment.
Proof.
  revert acc. induction l as [|[k v] l IH]; intros acc Hp; [by left|].
  cbn [foldl] in Hp. apply IH in Hp as [Hp|Hp]; [|by right].
  destruct acc as [[hs [m|]]|e0|p0]; cbn in Hp.
  - case_decide; [done|]. by destruct v as [|v0 [|v1 v]].
  - case_decide; [right; by injection Hp|]. by destruct v as [|v0 [|v1 v]].
  - done.
  - by left.
Qed.

Lemma TranscodeFrom_Panic_inv (r : lambdaHTTPResponse) (w : lambdaHTTPResponseWriter) p :
  TranscodeFrom r w = Panic p → p = nilMapAssignment.
Proof.
  destruct r as [r|r|r]; cbn [TranscodeFrom].
  - unfold TranscodeFrom_alb.
    destruct (foldl place _ _) as [[hs mv]|e0|p0] eqn:Hf;
      [by destruct (String.eqb _ _) | done |].
    intros [= <-]. by apply foldl_place_Panic_inv in Hf as [?|?].
  - unfold TranscodeFrom_v2. destruct (foldl v2_place _ _) as [hs cookies].
    by destruct (String.eqb _ _).
  - unfold TranscodeFrom_v1.
    destruct (foldl place _ _) as [[hs mv]|e0|p0] eqn:Hf;
      [by destruct (String.eqb _ _) | done |].
    intros [= <-]. by apply foldl_place_Panic_inv in Hf as [?|?].
Qed.


Lemma TranscodeFrom_ambiguous_Panic_inv (w : lambdaHTTPResponseWriter) p :
  TranscodeFrom_ambiguous w = Panic p → p = nilMapAssignment.
Proof.
  unfold TranscodeFrom_ambiguous, transcoded.
  destruct (preparedResponse w) as [prepared|].
  - destruct (TranscodeFrom prepared w) as [r'|e|p0] eqn:Ht.
    + by destruct (Marshal _).
    + done.
    + intros [= <-]. by apply TranscodeFrom_Panic_inv in Ht.
  - by destruct (Marshal _).
Qed.

Lemma Canonize_not_Panic (r : lambdaHTTPRequest) p : Canonize r ≠ Panic p.
Proof.
  intros Hp. pose proof (finishCanonize_outcome) as Ho.
  destruct r as [r|r|r]; cbn [Canonize] in Hp;
    unfold Canonize_alb, Canonize_v2, Canonize_v1 in Hp;
    match type of Hp with
    | finishCanonize ?a ?b ?c ?d ?e ?f ?g = _ => specialize (Ho a b c d e f g)
    end; by rewrite Hp in Ho.
Qed.

(** X18. The function registered by [ServeHTTP] never returns an error to
    the runtime, whatever the payload and the handler: it returns a reply,
    or it panics, and then either the handler panicked or a transcoder wrote
    to the nil multi-value map. *)
Theorem lambdaHandler_returns_reply_or_panics (handler : Handler) (req : RawMessage) :
  match lambdaHandler handler req with
  | Ok _ => True
  | Err _ => False
  | Panic p => p = handlerPanic ∨ p = nilMapAssignment
  end.
Proof.
  assert (Hreply : ∀ err, ∃ bs, errorReply err = Ok bs).
  { intros err. destruct (errorReply_Ok err) as (bs & Hbs & _). by exists bs. }
  unfold lambdaHandler.
  destruct (demux_cases req newWriter) as [(err & ->)|(r & err & ->)].
  { by destruct (Hreply err) as [bs ->]. }
  destruct err as [err|]; [by destruct (Hreply err) as [bs ->]|].
  pose proof (Canonize_not_Panic r) as Hnp.
  destruct (Canonize r) as [q|e|p];
    [|by destruct (Hreply e) as [bs ->] | by destruct (Hnp p)].
  destruct (handler _ q) as [w|]; [|by left].
  destruct (TranscodeFrom_ambiguous w) as [bs|e|p] eqn:Ht;
    [done | by destruct (Hreply e) as [bs ->] |].
  right. by apply TranscodeFrom_ambiguous_Panic_inv in Ht.
Qed.

(** X19. The path without failure: when the payload is classified and
    decoded, the request canonicalizes and the handler returns (leaving the
    prepared response alone, which it cannot reach), the reply is the
    serialization of the fresh envelope of the request's format transcoded
    from the writer; a serialization error is answered by the fallback
    envelope with status 500, a transcoder panic escapes. *)
Theorem lambdaHandler_replies_with_transcoded_envelope (handler : Handler) (payload : RawMessage)
    (rw w : lambdaHTTPResponseWriter) (r : lambdaHTTPRequest) (q : Request) :
  demuxAmbiguousRequest payload newWriter = (rw, (Some r, None)) →
  Canonize r = Ok q →
  handler rw q = Some w →
  preparedResponse w = preparedResponse rw →
  lambdaHandler handler payload =
    match TranscodeFrom (newResp r) w with
    | Ok resp =>
        match Marshal (AnyResponse resp) with
        | inr bs => Ok bs
        | inl me => errorReply ("failed to marshal response to JSON: " +:+ me)
        end
    | Err e => errorReply ("failed to transcode response: " +:+ e)
    | Panic p => Panic p
    end.
Proof.
  intros Hd Hc Hh Hp. unfold lambdaHandler. rewrite Hd, Hc, Hh.
  assert (Hprep : preparedResponse w = Some (newResp r)).
  { rewrite Hp. destruct (demux_cases payload newWriter) as [(err & Hd')|(r' & err & Hd')];
      rewrite Hd' in Hd; [done|]. by injection Hd as <- <- _. }
  unfold TranscodeFrom_ambiguous, transcoded. rewrite Hprep.
  destruct (TranscodeFrom (newResp r) w) as [resp|e|p]; [|done..].
  by destruct (Marshal (AnyResponse resp)).
Qed.


End ServeMore.

(** ** Options *)

Section OptionFacts.
Context `{GoEnv}.
Context {StrictHTTPMiddlewareFunc : Type}.

Lemma foldl_optionOf (cs : list (optionCall StrictHTTPMiddlewareFunc))
    (o : apiOptions StrictHTTPMiddlewareFunc) :
  foldl (fun useOpts opt => opt useOpts) o (map (optionOf _) cs)
  = mkOptions _ (lambdaMiddlewares _ o ++ lambdaOf _ cs)
      (strictMiddlewares _ o ++ strictOf _ cs)
      (lowLevelMiddlewares _ o ++ lowLevelOf _ cs).
Proof.
  revert o. induction cs as [|c cs IH]; intros o.
  - destruct o. unfold lambdaOf, strictOf, lowLevelOf; cbn. by rewrite !app_nil_r.
  - cbn [map foldl]. rewrite IH.
    destruct c as [ms|ms|ms]; destruct o as [lm sm hm];
      unfold lambdaOf, strictOf, lowLevelOf; cbn; by rewrite ?app_nil_r, <- ?app_assoc.
Qed.

Lemma wrap_app (handler : Handler) (ms1 ms2 : list (Handler -> Handler)) :
  wrap handler (ms1 ++ ms2) = wrap (wrap handler ms1) ms2.
Proof. apply foldl_app. Qed.

(** X21. [ServeAPI] hands [configureHandler] the strict middlewares of all
    [APIMiddleware] options in the order given, and wraps the handler with
    the middlewares of all [HTTPMiddleware] options twice over: once
    itself and once more in [ServeHTTP]. The first middleware is applied
    first (innermost). [LambdaMiddleware] options have no effect. *)
Theorem ServeAPI_applies_http_middlewares_twice {STRICTAPI API : Type} (api : STRICTAPI)
    (configureHandler : STRICTAPI -> list StrictHTTPMiddlewareFunc -> API)
    (serve : API -> Handler) (cs : list (optionCall StrictHTTPMiddlewareFunc)) :
  ServeAPI _ api configureHandler serve (map (optionOf _) cs)
  = ServeHTTP (serve (configureHandler api (strictOf _ cs)))
      (lowLevelOf _ cs ++ lowLevelOf _ cs).
Proof.
  unfold ServeAPI, ServeHTTP. rewrite foldl_optionOf. cbn. by rewrite wrap_app.
Qed.

End OptionFacts.

(** ** The fresh envelopes of the two formats with multi-value headers *)

Section FreshEnvelopes.
Context `{GoEnv}.

(** X22. On fresh envelopes the gateway-v1 and load-balancer transcoders
    behave alike: both panic when some header has several values, and
    otherwise both return the same single-value map, holding every key with
    exactly one value and dropping keys with no value, and a nil multi-value
    map; the load-balancer envelope also carries the status text. *)
Theorem v1_and_alb_fresh_envelopes_agree (w : lambdaHTTPResponseWriter) :
  match TranscodeFrom_v1 newV1Response w, TranscodeFrom_alb newALBResponse w with
  | Ok e1, Ok e2 =>
      ¬ multiValued (headerMap w)
      ∧ v1_StatusCode e1 = statusCode w ∧ alb_StatusCode e2 = statusCode w
      ∧ alb_StatusDescription e2 = StatusText (statusCode w)
      ∧ v1_MultiValueHeaders e1 = None ∧ alb_MultiValueHeaders e2 = None
      ∧ ∃ hs, v1_Headers e1 = Some hs ∧ alb_Headers e2 = Some hs
              ∧ ∀ k, hs !! k = headerMap w !! k ≫= singleValue k
  | Panic p1, Panic p2 =>
      multiValued (headerMap w) ∧ p1 = nilMapAssignment ∧ p2 = nilMapAssignment
  | _, _ => False
  end.
Proof.
  rewrite TranscodeFrom_v1_fresh, TranscodeFrom_alb_fresh.
  destruct (decide (multiValued (headerMap w))) as [Hm|Hm]; [done|].
  cbn. repeat (split; [done|]). exists (singleHeaders (headerMap w)).
  repeat (split; [done|]). intros k. apply singleHeaders_lookup.
Qed.

(** X23. On a receiver whose multi-value map has been made, the
    load-balancer transcoder returns an envelope for every writer, with the
    status text of the writer's code and the same placement as gateway v1:
    one value in the single-value map, several in the multi-value map. *)
Theorem alb_transcode_with_made_multi_map (r : albResponse)
    (w : lambdaHTTPResponseWriter) (m0 : gmap string (list string)) :
  alb_MultiValueHeaders r = Some m0 →
  ∃ e hs mv, TranscodeFrom_alb r w = Ok e
    ∧ alb_StatusCode e = statusCode w
    ∧ alb_StatusDescription e = StatusText (statusCode w)
    ∧ alb_Headers e = Some hs ∧ alb_MultiValueHeaders e = Some mv
    ∧ (∀ k, hs !! k = headerMap w !! k ≫= singleValue k)
    ∧ (∀ k, mv !! k = match headerMap w !! k ≫= severalValues k with
                      | Some v => Some v
                      | None => m0 !! k
                      end).
Proof.
  intros Hm0. unfold TranscodeFrom_alb. rewrite Hm0, foldl_place_made_multi.
  assert (Hhs : ∀ k, foldl (insertWhere singleValue) ∅ (range (headerMap w)) !! k
                     = headerMap w !! k ≫= singleValue k).
  { intros k. apply singleHeaders_lookup. }
  assert (Hmv : ∀ k, foldl (insertWhere severalValues) m0 (range (headerMap w)) !! k
                     = match headerMap w !! k ≫= severalValues k with
                       | Some v => Some v
                       | None => m0 !! k
                       end).
  { intros k. apply range_insertWhere_lookup. }
  destruct (String.eqb _ _).
  - eexists; eexists; eexists. split; [reflexivity|]. cbn. by repeat split.
  - eexists; eexists; eexists. split; [reflexivity|]. cbn. by repeat split.
Qed.

End FreshEnvelopes.

(** ** The further properties on the example instance *)

Section MoreRuns.
Local Existing Instance Example.env.

Lemma calls_touch_only_content_type_witness :
  "X-Id" ≠ contentTypeHeader
  ∧ headerMap (performAll Example.writerWithHeaders
                 [CallWrite (Some Example.pong); CallWriteHeader 404]) !! "X-Id"
    = headerMap Example.writerWithHeaders !! "X-Id".
Proof.
  assert (Hk : "X-Id" ≠ contentTypeHeader) by (vm_compute; discriminate).
  split; [exact Hk|].
  exact (calls_touch_only_content_type Example.writerWithHeaders
           [CallWrite (Some Example.pong); CallWriteHeader 404] "X-Id" Hk).
Defined.

Lemma content_type_set_by_handler_is_kept_witness :
  headerMap Example.writerWithHeaders !! contentTypeHeader = Some ["application/json"]
  ∧ headerMap (performAll Example.writerWithHeaders [CallWrite (Some Example.pong)])
      !! contentTypeHeader = Some ["application/json"].
Proof.
  assert (Hct : headerMap Example.writerWithHeaders !! contentTypeHeader
                = Some ["application/json"]) by (vm_compute; reflexivity).
  split; [exact Hct|].
  exact (content_type_set_by_handler_is_kept Example.writerWithHeaders
           [CallWrite (Some Example.pong)] ["application/json"] Hct).
Defined.

Lemma first_write_sniffs_content_type_witness :
  statusCode newWriter = 0
  ∧ headerMap newWriter !! contentTypeHeader = None
  ∧ headerMap (Write newWriter (Some Example.pong)).1 !! contentTypeHeader
    = Some ["text/plain; charset=utf-8"].
Proof.
  split; [reflexivity|]. split; [reflexivity|].
  exact (first_write_sniffs_content_type newWriter (Some Example.pong) eq_refl eq_refl).
Defined.

Lemma explicit_status_disables_sniffing_witness :
  statusCode newWriter = 0
  ∧ (CallFlush = CallFlush ∨ ∃ s, CallFlush = CallWriteHeader s ∧ s ≠ 0)
  ∧ headerMap (performAll newWriter [CallFlush; CallWrite (Some Example.pong)])
    = headerMap newWriter.
Proof.
  split; [reflexivity|]. split; [by left|].
  exact (explicit_status_disables_sniffing newWriter CallFlush
           [CallWrite (Some Example.pong)] eq_refl (or_introl eq_refl)).
Defined.

Lemma v1_transcode_with_made_multi_map_witness :
  v1_MultiValueHeaders Example.v1ResponseWithMaps = Some ∅
  ∧ ∃ e hs mv, TranscodeFrom_v1 Example.v1ResponseWithMaps Example.writerTwoValues = Ok e
    ∧ v1_StatusCode e = statusCode Example.writerTwoValues
    ∧ v1_Headers e = Some hs ∧ v1_MultiValueHeaders e = Some mv
    ∧ (∀ k, hs !! k = headerMap Example.writerTwoValues !! k ≫= singleValue k)
    ∧ (∀ k, mv !! k = match headerMap Example.writerTwoValues !! k ≫= severalValues k with
                      | Some v => Some v
                      | None => (∅ : gmap string (list string)) !! k
                      end)
    ∧ ((∅ : gmap string (list string)) = ∅ →
       ∀ k, ¬ (is_Some (hs !! k) ∧ is_Some (mv !! k))).
Proof.
  split; [reflexivity|].
  exact (v1_transcode_with_made_multi_map Example.v1ResponseWithMaps
           Example.writerTwoValues ∅ eq_refl).
Defined.

Lemma alb_transcode_with_made_multi_map_witness :
  alb_MultiValueHeaders (mkALBResponse 0 "" None (Some ∅) "" false) = Some ∅
  ∧ ∃ e, TranscodeFrom_alb (mkALBResponse 0 "" None (Some ∅) "" false)
           Example.writerTwoValues = Ok e
         ∧ alb_StatusDescription e = "OK".
Proof.
  split; [reflexivity|].
  destruct (alb_transcode_with_made_multi_map (mkALBResponse 0 "" None (Some ∅) "" false)
              Example.writerTwoValues ∅ eq_refl)
    as (e & hs & mv & He & _ & Hd & _).
  exists e. split; [exact He | exact Hd].
Defined.


Lemma v1_query_repeats_parameters_of_both_maps_witness :
  ∃ out, Canonize_v1 Example.v1ReqQuery = Ok out
         ∧ v1Params Example.v1ReqQuery !! "page" = Some ["2"; "2"].
Proof.
  assert (Hc : ∃ out, Canonize_v1 Example.v1ReqQuery = Ok out).
  { eexists. vm_compute. reflexivity. }
  destruct Hc as [out Hc]. exists out. split; [exact Hc|].
  exact (proj2 (v1_query_repeats_parameters_of_both_maps Example.v1ReqQuery out Hc) "page").
Defined.


Lemma v1_multi_value_wins_for_canonical_keys_witness :
  ∃ out, Canonize_v1 Example.v1ReqQuery = Ok out
         ∧ http.CanonicalHeaderKey "Accept" = "Accept"
         ∧ v1_ReqMultiValueHeaders Example.v1ReqQuery !! "Accept"
           = Some ["text/html"; "application/json"]
         ∧ req_Header out !! "Accept" = Some ["text/html"; "application/json"]
         ∧ http.Get (req_Header out) "Accept" = "text/html".
Proof.
  assert (Hc : ∃ out, Canonize_v1 Example.v1ReqQuery = Ok out).
  { eexists. vm_compute. reflexivity. }
  destruct Hc as [out Hc]. exists out. split; [exact Hc|].
  split; [reflexivity|]. split; [vm_compute; reflexivity|].
  exact (v1_multi_value_wins_for_canonical_keys Example.v1ReqQuery out "Accept"
           "text/html" ["application/json"] Hc eq_refl eq_refl).
Defined.

Lemma alb_remote_address_is_text_before_comma_witness :
  ∃ out, Canonize_alb Example.albReqMulti = Ok out
         ∧ alb_ReqMultiValueHeaders Example.albReqMulti !! "x-forwarded-for"
           = Some ["198.51.100.4, 10.0.0.9"]
         ∧ commaFree (req_RemoteAddr out)
         ∧ ∃ tail, "198.51.100.4, 10.0.0.9" = req_RemoteAddr out +:+ tail
                   ∧ (tail = "" ∨ ∃ t, tail = String ","%char t).
Proof.
  assert (Hc : ∃ out, Canonize_alb Example.albReqMulti = Ok out).
  { eexists. vm_compute. reflexivity. }
  destruct Hc as [out Hc]. exists out. split; [exact Hc|].
  split; [vm_compute; reflexivity|].
  exact (alb_remote_address_is_text_before_comma Example.albReqMulti out
           "198.51.100.4, 10.0.0.9" [] Hc eq_refl).
Defined.

Lemma lambdaHandler_replies_with_transcoded_envelope_witness :
  ∃ q,
    demuxAmbiguousRequest Example.payloadV2 newWriter
    = ((with_preparedResponse (Some (RespV2 newV2Response)) newWriter), (Some (ReqV2 Example.v2Req), None))
    ∧ Canonize (ReqV2 Example.v2Req) = Ok q
    ∧ fixedHandler 201 Example.pong (with_preparedResponse (Some (RespV2 newV2Response)) newWriter) q
      = Some (mkWriter None Example.pong 201 (Some (RespV2 newV2Response)))
    ∧ preparedResponse (mkWriter None Example.pong 201 (Some (RespV2 newV2Response)))
      = preparedResponse (with_preparedResponse (Some (RespV2 newV2Response)) newWriter)
    ∧ lambdaHandler (fixedHandler 201 Example.pong) Example.payloadV2
      = match TranscodeFrom (newResp (ReqV2 Example.v2Req))
                (mkWriter None Example.pong 201 (Some (RespV2 newV2Response))) with
        | Ok resp =>
            match Marshal (AnyResponse resp) with
            | inr bs => Ok bs
            | inl me => errorReply ("failed to marshal response to JSON: " +:+ me)
            end
        | Err e => errorReply ("failed to transcode response: " +:+ e)
        | Panic p => Panic p
        end.
Proof.
  assert (Hd : demuxAmbiguousRequest Example.payloadV2 newWriter
               = ((with_preparedResponse (Some (RespV2 newV2Response)) newWriter), (Some (ReqV2 Example.v2Req), None))) by (vm_compute; reflexivity).
  assert (Hc : ∃ q, Canonize (ReqV2 Example.v2Req) = Ok q).
  { eexists. vm_compute. reflexivity. }
  destruct Hc as [q Hc].
  assert (Hh : fixedHandler 201 Example.pong (with_preparedResponse (Some (RespV2 newV2Response)) newWriter) q
               = Some (mkWriter None Example.pong 201 (Some (RespV2 newV2Response)))) by (vm_compute; reflexivity).
  exists q. repeat (split; [first [assumption | reflexivity]|]).
  exact (lambdaHandler_replies_with_transcoded_envelope _ _ _ _ _ q Hd Hc Hh eq_refl).
Defined.

End MoreRuns.
